(** * SRWDetector: a shallow embedding of [srw_detector.py]

    The detector adapter reads two motors, pushes the readings into a
    Sirepo/SRW beamline model, runs the simulation, stores the result file
    and republishes the parsed fields as ophyd signals.  The module also
    contains a small interactive discovery script.

    Python objects that are shared and mutated in place (the simulation
    data held by the [SirepoBluesky] session, the registry, the file system,
    the detector itself) live in one explicit store that every operation
    threads through a state-and-exception monad. *)

From Stdlib Require Import ZArith String Ascii List PrimFloat.
From stdpp Require Import base strings list gmap pretty.

Local Open Scope string_scope.
Local Open Scope Z_scope.
Local Open Scope list_scope.

Set Warnings "-register-all".

(** ** Python values *)

Module Py.

(** The values that flow through the adapter: motor readings, JSON scalars
    of the beamline model and the fields returned by the file reader. *)
Inductive pyval : Type :=
  | PyNone
  | PyBool (b : bool)
  | PyInt (n : Z)
  | PyFloat (f : float)
  | PyStr (s : string)
  | PyTuple (l : list pyval)
  | PyList (l : list pyval).

(** Exceptions: the built-in classes the module can raise by itself, and
    [Raised] for whatever a collaborator raises. *)
Inductive exn : Type :=
  | AttributeError (msg : string)
  | KeyError (msg : string)
  | TypeError (msg : string)
  | ValueError (msg : string)
  | AssertionError (msg : string)
  | UnicodeDecodeError
  | FileNotFoundError (path : string)
  | EOFError
  | Raised (cls msg : string).

(** [s * n] for sequences: [n] copies glued together. *)
Fixpoint seq_repeat {A} (n : nat) (l : list A) : list A :=
  match n with
  | O => []
  | S k => l ++ seq_repeat k l
  end.

Fixpoint str_repeat (n : nat) (s : string) : string :=
  match n with
  | O => ""
  | S k => s +:+ str_repeat k s
  end.

(** [v * 1000], as Python evaluates it when the right operand is the
    integer literal 1000. *)
Definition mul_1000 (v : pyval) : exn + pyval :=
  match v with
  | PyNone => inl (TypeError "unsupported operand type(s) for *: 'NoneType' and 'int'")
  | PyBool b => inr (PyInt (Z.b2z b * 1000))
  | PyInt n => inr (PyInt (n * 1000))
  | PyFloat f => inr (PyFloat (f * 1000)%float)
  | PyStr s => inr (PyStr (str_repeat 1000 s))
  | PyTuple l => inr (PyTuple (seq_repeat 1000 l))
  | PyList l => inr (PyList (seq_repeat 1000 l))
  end.

(** Truthiness of an optional string argument: [None] and [''] are falsy. *)
Definition truthy (o : option string) : bool :=
  match o with
  | None => false
  | Some s => negb (String.eqb s "")
  end.

(** [v == 'lit'] for a string literal. *)
Definition eq_str (v : pyval) (lit : string) : bool :=
  match v with
  | PyStr s => String.eqb s lit
  | _ => false
  end.

(** *** Dictionaries

    A [dict] keeps its keys in insertion order, which the discovery script
    exposes when it prints parameter names.  Keys are strings, or [None]
    when an optional parameter name was left at its default. *)
Definition key := option string.
Definition dict (V : Type) := list (key * V).

Fixpoint get {V} (d : dict V) (k : key) : option V :=
  match d with
  | [] => None
  | (k', v) :: d' => if decide (k' = k) then Some v else get d' k
  end.

(** [d[k] = v]: overwrite in place, or append a new key at the end. *)
Fixpoint set {V} (d : dict V) (k : key) (v : V) : dict V :=
  match d with
  | [] => [(k, v)]
  | (k', v') :: d' =>
      if decide (k' = k) then (k', v) :: d' else (k', v') :: set d' k v
  end.

Definition keys {V} (d : dict V) : list key := map fst d.

(** *** Strings: [find] and slicing *)

Fixpoint find_from (c : ascii) (s : list ascii) (i : Z) : Z :=
  match s with
  | [] => -1
  | a :: s' => if decide (a = c) then i else find_from c s' (i + 1)
  end.

(** [s.find(c)]: index of the first occurrence, or -1. *)
Definition find (c : ascii) (s : list ascii) : Z := find_from c s 0.

(** A slice bound as Python normalises it: negative bounds count from the
    end, and everything is clamped to [0, len]. *)
Definition clamp (len i : Z) : Z :=
  let j := if i <? 0 then i + len else i in
  Z.max 0 (Z.min len j).

(** [l[lo:hi]] *)
Definition slice {A} (lo hi : Z) (l : list A) : list A :=
  let len := Z.of_nat (length l) in
  let a := clamp len lo in
  let b := clamp len hi in
  take (Z.to_nat (b - a)) (drop (Z.to_nat a) l).

End Py.

(** ** State and exceptions

    A computation runs on a store [S]; it either returns a value or raises,
    and in both cases hands back the store as the effects left it. *)

Definition M (S A : Type) : Type := S -> (Py.exn + A) * S.

Definition ret {S A} (a : A) : M S A := fun s => (inr a, s).

Definition raise {S A} (e : Py.exn) : M S A := fun s => (inl e, s).

Definition bind {S A B} (m : M S A) (k : A -> M S B) : M S B :=
  fun s =>
    match m s with
    | (inl e, s') => (inl e, s')
    | (inr a, s') => k a s'
    end.

Definition gets {S A} (f : S -> A) : M S A := fun s => (inr (f s), s).

Definition modify {S} (f : S -> S) : M S unit := fun s => (inr tt, f s).

(** A pure step that may raise. *)
Definition lift {S A} (r : Py.exn + A) : M S A := fun s => (r, s).

(** Subscript [d[k]] on a dictionary: [KeyError] when the key is absent. *)
Definition subscript {S V} (d : Py.dict V) (k : Py.key) : M S V :=
  match Py.get d k with
  | Some v => ret v
  | None => raise (Py.KeyError (default "None" k))
  end.

Declare Scope py_scope.
Delimit Scope py_scope with py.
Notation "x <- m ;; k" := (bind m (fun x => k))
  (at level 100, m at next level, right associativity) : py_scope.
Notation "m ;;; k" := (bind m (fun _ => k))
  (at level 100, right associativity) : py_scope.
Local Open Scope py_scope.

Definition bytes := list Byte.byte.

(** ** The collaborators' data *)

(** The completion marker handed back to the run engine. *)
Inductive status := NullStatus.

(** One registered resource and one registered datum of the registry. *)
Record resource := {
  res_uid : string;
  res_spec : string;
  res_path : string;
  res_kwargs : Py.dict Py.pyval }.

Record datum := {
  datum_resource : option string;
  datum_id : string;
  datum_kwargs : Py.dict Py.pyval }.

Record registry := {
  resources : list resource;
  datums : list datum }.

(** The six signal components of the detector, each holding the value of
    its last [put]. *)
Record signals := {
  image : Py.pyval;
  shape : Py.pyval;
  mean : Py.pyval;
  photon_energy : Py.pyval;
  horizontal_extent : Py.pyval;
  vertical_extent : Py.pyval }.

Definition put_image (v : Py.pyval) (s : signals) : signals :=
  {| image := v; shape := shape s; mean := mean s;
     photon_energy := photon_energy s;
     horizontal_extent := horizontal_extent s;
     vertical_extent := vertical_extent s |}.

Definition put_shape (v : Py.pyval) (s : signals) : signals :=
  {| image := image s; shape := v; mean := mean s;
     photon_energy := photon_energy s;
     horizontal_extent := horizontal_extent s;
     vertical_extent := vertical_extent s |}.

Definition put_mean (v : Py.pyval) (s : signals) : signals :=
  {| image := image s; shape := shape s; mean := v;
     photon_energy := photon_energy s;
     horizontal_extent := horizontal_extent s;
     vertical_extent := vertical_extent s |}.

Definition put_photon_energy (v : Py.pyval) (s : signals) : signals :=
  {| image := image s; shape := shape s; mean := mean s;
     photon_energy := v;
     horizontal_extent := horizontal_extent s;
     vertical_extent := vertical_extent s |}.

Definition put_horizontal_extent (v : Py.pyval) (s : signals) : signals :=
  {| image := image s; shape := shape s; mean := mean s;
     photon_energy := photon_energy s;
     horizontal_extent := v;
     vertical_extent := vertical_extent s |}.

Definition put_vertical_extent (v : Py.pyval) (s : signals) : signals :=
  {| image := image s; shape := shape s; mean := mean s;
     photon_energy := photon_energy s;
     horizontal_extent := horizontal_extent s;
     vertical_extent := v |}.

(** A reference to the registry [db.reg]; the registry itself is shared and
    lives in the store. *)
Inductive reg_ref := DbReg.

(** What [motor.read()] returns: per field name a small dictionary with the
    key ['value'] among others. *)
Definition reading := Py.dict (Py.dict Py.pyval).

(** ** Paths *)

(** [Path(a) / Path(b)]: an absolute right operand replaces the left one. *)
Definition path_join (a b : string) : string :=
  match b with
  | String "/" _ => b
  | _ => a +:+ "/" +:+ b
  end.

Fixpoint dirname_aux (s : string) : option string :=
  match s with
  | EmptyString => None
  | String c s' =>
      match dirname_aux s' with
      | Some d => Some (String c d)
      | None => if Ascii.eqb c "/" then Some EmptyString else None
      end
  end.

(** The directory a file path lies in: everything before the last slash. *)
Definition dirname (s : string) : string := default EmptyString (dirname_aux s).

(** ** The adapter and its environment *)

(** What the adapter cannot see into is kept abstract: the remote Sirepo
    service together with the HTTP session ([srv]), the part of the
    simulation data the adapter never inspects ([extra]), the private state
    of the ophyd [Device] base class ([base]), wall-clock instants ([time])
    and the extra keyword arguments forwarded to the base class. *)
Class Opaque := {
  srv : Type;
  extra : Type;
  base : Type;
  time : Type;
  kwargs : Type }.

Section Store.

Context `{Opaque}.

(** The simulation data returned by [auth]: [data['models']['beamline']] is
    a list of element dictionaries, [data['report']] selects the report. *)
Record sim_data := {
  beamline : list (Py.dict Py.pyval);
  report : option string;
  others : extra }.

Definition set_beamline (b : list (Py.dict Py.pyval)) (d : sim_data) : sim_data :=
  {| beamline := b; report := report d; others := others d |}.

Definition set_report (r : string) (d : sim_data) : sim_data :=
  {| beamline := beamline d; report := Some r; others := others d |}.

(** Requests sent to the remote service, in the order they were issued.
    The session object shares the simulation data with the caller, so each
    request carries the data as it stands when the request is made. *)
Inductive call :=
  | CallAuth (address sim_type : string) (sim_id : option string)
  | CallGetDatafile (d : sim_data)
  | CallRunSimulation (d : sim_data).

(** Everything outside the detector object. *)
Record world := {
  server : srv;
  calls : list call;
  uids : nat;
  now : time;
  dirs : gset string;
  files : gmap string bytes;
  db_reg : registry;
  motors : string -> reading }.

Definition with_server (sv : srv) (c : list call) (w : world) : world :=
  {| server := sv; calls := c; uids := uids w; now := now w;
     dirs := dirs w; files := files w; db_reg := db_reg w;
     motors := motors w |}.

Definition with_uids (n : nat) (w : world) : world :=
  {| server := server w; calls := calls w; uids := n; now := now w;
     dirs := dirs w; files := files w; db_reg := db_reg w;
     motors := motors w |}.

Definition with_files (f : gmap string bytes) (w : world) : world :=
  {| server := server w; calls := calls w; uids := uids w; now := now w;
     dirs := dirs w; files := f; db_reg := db_reg w;
     motors := motors w |}.

Definition with_db_reg (r : registry) (w : world) : world :=
  {| server := server w; calls := calls w; uids := uids w; now := now w;
     dirs := dirs w; files := files w; db_reg := r;
     motors := motors w |}.

(** The detector object.  Motors are held by reference (their name); the
    readings themselves belong to the world. *)
Record SRWDetector := {
  ophyd : base;
  name : string;
  sig : signals;
  reg : option reg_ref;
  optic_name : string;
  param0 : string;
  param1 : option string;
  _motor0 : string;
  _motor1 : option string;
  _field0 : string;
  _field1 : option string;
  _resource_id : option string;
  _result : Py.dict Py.pyval;
  _sim_id : option string;
  watch_name : option string;
  _sirepo_server : string;
  _hints : option (Py.dict (list string)) }.

Definition with_ophyd (b : base) (d : SRWDetector) : SRWDetector :=
  {| ophyd := b; name := name d; sig := sig d; reg := reg d;
     optic_name := optic_name d; param0 := param0 d; param1 := param1 d;
     _motor0 := _motor0 d; _motor1 := _motor1 d; _field0 := _field0 d;
     _field1 := _field1 d; _resource_id := _resource_id d;
     _result := _result d; _sim_id := _sim_id d; watch_name := watch_name d;
     _sirepo_server := _sirepo_server d; _hints := _hints d |}.

Definition with_sig (s : signals) (d : SRWDetector) : SRWDetector :=
  {| ophyd := ophyd d; name := name d; sig := s; reg := reg d;
     optic_name := optic_name d; param0 := param0 d; param1 := param1 d;
     _motor0 := _motor0 d; _motor1 := _motor1 d; _field0 := _field0 d;
     _field1 := _field1 d; _resource_id := _resource_id d;
     _result := _result d; _sim_id := _sim_id d; watch_name := watch_name d;
     _sirepo_server := _sirepo_server d; _hints := _hints d |}.

Definition with_resource_id (r : option string) (d : SRWDetector) : SRWDetector :=
  {| ophyd := ophyd d; name := name d; sig := sig d; reg := reg d;
     optic_name := optic_name d; param0 := param0 d; param1 := param1 d;
     _motor0 := _motor0 d; _motor1 := _motor1 d; _field0 := _field0 d;
     _field1 := _field1 d; _resource_id := r;
     _result := _result d; _sim_id := _sim_id d; watch_name := watch_name d;
     _sirepo_server := _sirepo_server d; _hints := _hints d |}.

Definition with_result (r : Py.dict Py.pyval) (d : SRWDetector) : SRWDetector :=
  {| ophyd := ophyd d; name := name d; sig := sig d; reg := reg d;
     optic_name := optic_name d; param0 := param0 d; param1 := param1 d;
     _motor0 := _motor0 d; _motor1 := _motor1 d; _field0 := _field0 d;
     _field1 := _field1 d; _resource_id := _resource_id d;
     _result := r; _sim_id := _sim_id d; watch_name := watch_name d;
     _sirepo_server := _sirepo_server d; _hints := _hints d |}.

Definition with_hints (h : option (Py.dict (list string))) (d : SRWDetector)
  : SRWDetector :=
  {| ophyd := ophyd d; name := name d; sig := sig d; reg := reg d;
     optic_name := optic_name d; param0 := param0 d; param1 := param1 d;
     _motor0 := _motor0 d; _motor1 := _motor1 d; _field0 := _field0 d;
     _field1 := _field1 d; _resource_id := _resource_id d;
     _result := _result d; _sim_id := _sim_id d; watch_name := watch_name d;
     _sirepo_server := _sirepo_server d; _hints := h |}.

(** The store a method runs on: the object [self] and the world. *)
Record state := { self : SRWDetector; env : world }.

Definition on_self (f : SRWDetector -> SRWDetector) (s : state) : state :=
  {| self := f (self s); env := env s |}.

Definition on_env (f : world -> world) (s : state) : state :=
  {| self := self s; env := f (env s) |}.

(** Run a computation on the world from inside a method. *)
Definition in_env {A} (m : M world A) : M state A :=
  fun s => let '(r, w) := m (env s) in (r, {| self := self s; env := w |}).

End Store.

(** *** Collaborators

    The capabilities the adapter is written against. *)
Class Collaborators `{Opaque} := {
  (** The remote client ([SirepoBluesky]): authentication returns the
      simulation data; the data file and the run are requested for the data
      the session currently holds. *)
  sb_auth :
    string -> string -> option string -> srv -> (Py.exn + sim_data) * srv;
  sb_get_datafile : string -> sim_data -> srv -> (Py.exn + bytes) * srv;
  sb_run_simulation : string -> sim_data -> srv -> (Py.exn + unit) * srv;
  (** [bytes.decode("utf-8")], [None] standing for [UnicodeDecodeError]. *)
  decode_utf8 : bytes -> option string;
  (** The result-file reader ([read_srw_file]) applied to a file's
      contents. *)
  read_srw : bytes -> Py.exn + Py.dict Py.pyval;
  (** [str(v)], [uuid.uuid4()] as the n-th draw, [strftime]. *)
  py_str : Py.pyval -> string;
  uuid4 : nat -> string;
  strftime : time -> string -> string;
  (** [repr] of a list of keys and of the watch-point dictionary, as an
      f-string renders them. *)
  repr_keys : list Py.key -> string;
  repr_watchpoints : Py.dict string -> string;
  (** The ophyd [Device] base class: construction yields the private state
      and the initial signal values; [trigger] and [unstage] act on the
      private state; [describe] reports the metadata of the signals;
      assignment to [read_attrs] / [configuration_attrs] goes to the
      private state.  [no_kwargs] is the empty keyword dictionary. *)
  Device_init : string -> kwargs -> base * signals;
  Device_trigger : base -> base;
  Device_unstage : base -> base;
  Device_describe :
    base -> string -> signals -> Py.exn + Py.dict (Py.dict Py.pyval);
  Device_setattr : string -> list string -> base -> base;
  no_kwargs : kwargs }.

Section Adapter.

Context `{Collaborators}.

Definition remote {A} (c : call) (op : srv -> (Py.exn + A) * srv) : M world A :=
  fun w =>
    let '(r, sv) := op (server w) in
    (r, with_server sv (calls w ++ [c]) w).

(** [ophyd.sim.new_uid()] *)
Definition new_uid : M world string :=
  fun w => (inr (uuid4 (uids w)), with_uids (S (uids w)) w).

(** [open(path, 'wb')]: truncates or creates the file; the directory must
    exist already. *)
Definition open_wb (path : string) : M world unit :=
  fun w =>
    if decide (dirname path ∈ dirs w)
    then (inr tt, with_files (<[path := []]> (files w)) w)
    else (inl (Py.FileNotFoundError path), w).

(** [f.write(b)] on the file opened at [path]. *)
Definition write (path : string) (b : bytes) : M world unit :=
  modify (fun w =>
    with_files (<[path := default [] (files w !! path) ++ b]> (files w)) w).

(** [read_srw_file(path)] *)
Definition read_srw_file (path : string) : M world (Py.dict Py.pyval) :=
  fun w =>
    match files w !! path with
    | Some b => (read_srw b, w)
    | None => (inl (Py.FileNotFoundError path), w)
    end.

(** The registry: [insert_resource] files a resource under a fresh uid and
    returns it; [insert_datum] files a datum for a resource. *)
Definition insert_resource (spec path : string) (kw : Py.dict Py.pyval)
  : M world string :=
  uid <- new_uid ;;
  modify (fun w =>
    with_db_reg
      {| resources := resources (db_reg w) ++
           [{| res_uid := uid; res_spec := spec; res_path := path;
               res_kwargs := kw |}];
         datums := datums (db_reg w) |} w) ;;;
  ret uid.

Definition insert_datum (resource_id : option string) (datum_id : string)
  (kw : Py.dict Py.pyval) : M world unit :=
  modify (fun w =>
    with_db_reg
      {| resources := resources (db_reg w);
         datums := datums (db_reg w) ++
           [{| datum_resource := resource_id; datum_id := datum_id;
               datum_kwargs := kw |}] |} w).

(** [e[field] == value] where the value sought is a string or [None]. *)
Definition field_is (e : Py.dict Py.pyval) (field : string)
  (value : option string) : bool :=
  match Py.get e (Some field), value with
  | Some v, Some s => Py.eq_str v s
  | Some Py.PyNone, None => true
  | _, _ => false
  end.

(** Modelled from the spec: [SirepoBluesky.find_element] is not part of this
    module.  It locates an element of a beamline by the value of a field
    and fails when no element has it.  The element is returned by
    reference, here its position in the list. *)
Fixpoint find_element_from (elements : list (Py.dict Py.pyval))
  (field : string) (value : option string) (i : nat) : option nat :=
  match elements with
  | [] => None
  | e :: rest =>
      if field_is e field value then Some i
      else find_element_from rest field value (S i)
  end.

Definition find_element (elements : list (Py.dict Py.pyval))
  (field : string) (value : option string) : Py.exn + nat :=
  match find_element_from elements field value 0 with
  | Some i => inr i
  | None => inl (Py.AssertionError "element not found")
  end.

(** [element[k] = v] for the element at position [i] of the beamline. *)
Definition set_element (i : nat) (k : Py.key) (v : Py.pyval) (d : sim_data)
  : sim_data :=
  set_beamline (alter (fun e => Py.set e k v) i (beamline d)) d.

(** [element[k]] for the element at position [i]. *)
Definition element_get {S} (i : nat) (k : Py.key) (d : sim_data) : M S Py.pyval :=
  match beamline d !! i with
  | Some e => subscript e k
  | None => raise (Py.KeyError (default "None" k))
  end.

(** ** [SRWDetector] *)

(** [self.attr] *)
Definition attr {A} (f : SRWDetector -> A) : M state A :=
  gets (fun s => f (self s)).

(** [signal.put(v)] on one of the six components. *)
Definition put (setter : Py.pyval -> signals -> signals) (v : Py.pyval)
  : M state unit :=
  modify (on_self (fun d => with_sig (setter v (sig d)) d)).

(** [component.name] of a signal component: the device name, an underscore
    and the attribute name. *)
Definition component_name (d : SRWDetector) (attribute : string) : string :=
  name d +:+ "_" +:+ attribute.

(** [SRWDetector.__init__]: every argument is stored, then the simulation
    id is asserted to be truthy. *)
Definition __init__ (name optic_name param0 motor0 field0 : string)
  (motor1 field1 param1 : option string) (reg : option reg_ref)
  (sim_id watch_name : option string) (sirepo_server : string)
  (kw : kwargs) : M world SRWDetector :=
  let '(b, sg) := Device_init name kw in
  let self :=
    {| ophyd := b; name := name; sig := sg; reg := reg;
       optic_name := optic_name; param0 := param0; param1 := param1;
       _motor0 := motor0; _motor1 := motor1; _field0 := field0;
       _field1 := field1; _resource_id := None; _result := [];
       _sim_id := sim_id; watch_name := watch_name;
       _sirepo_server := sirepo_server; _hints := None |} in
  if Py.truthy sim_id then ret self
  else raise (Py.AssertionError
                ("Simulation ID must be provided. Currently it is set to "
                 +:+ default "None" sim_id)).

(** The [hints] property and its setter. *)
Definition hints : M state (Py.dict (list string)) :=
  h <- attr _hints ;;
  match h with
  | None =>
      d <- gets self ;;
      ret [(Some "fields", [component_name d "mean"])]
  | Some v => ret v
  end.

Definition set_hints (val : Py.dict (list string)) : M state unit :=
  modify (on_self (with_hints (Some val))).

(** [motor.read()[field]['value']] *)
Definition motor_value (motor field : option string) : M world Py.pyval :=
  match motor with
  | None =>
      raise (Py.AttributeError "'NoneType' object has no attribute 'read'")
  | Some m =>
      r <- gets (fun w => motors w m) ;;
      entry <- subscript r field ;;
      subscript entry (Some "value")
  end.

(** The units substring cut out of the data file text. *)
Definition final_units (text : string) : list ascii :=
  let sb_data := Py.slice 200 300 (list_ascii_of_string text) in
  let start := Py.find "["%char sb_data in
  let end_ := Py.find "]"%char sb_data in
  Py.slice (start + 1) end_ sb_data.

(** [self.reg.insert_resource(...)] and [self.reg.insert_datum(...)] *)
Definition reg_insert_resource (spec path : string) (kw : Py.dict Py.pyval)
  : M state string :=
  r <- attr reg ;;
  match r with
  | None =>
      raise (Py.AttributeError
               "'NoneType' object has no attribute 'insert_resource'")
  | Some DbReg => in_env (insert_resource spec path kw)
  end.

Definition reg_insert_datum (resource_id : option string) (datum_id : string)
  (kw : Py.dict Py.pyval) : M state unit :=
  r <- attr reg ;;
  match r with
  | None =>
      raise (Py.AttributeError
               "'NoneType' object has no attribute 'insert_datum'")
  | Some DbReg => in_env (insert_datum resource_id datum_id kw)
  end.

(** [Path('/tmp/data') / Path(date.strftime('%Y/%m/%d')) /
    Path('{}.dat'.format(datum_id))] *)
Definition srw_file_path (date : time) (datum_id : string) : string :=
  path_join (path_join "/tmp/data" (strftime date "%Y/%m/%d"))
            (datum_id +:+ ".dat").

(** [SRWDetector.trigger] *)
Definition trigger : M state status :=
  modify (on_self (fun d => with_ophyd (Device_trigger (ophyd d)) d)) ;;;
  m0 <- attr _motor0 ;;
  f0 <- attr _field0 ;;
  x <- in_env (motor_value (Some m0) (Some f0)) ;;
  m1 <- attr _motor1 ;;
  f1 <- attr _field1 ;;
  y <- in_env (motor_value m1 f1) ;;
  datum_id <- in_env new_uid ;;
  date <- gets (fun s => now (env s)) ;;
  let srw_file := srw_file_path date datum_id in
  sim_id <- attr _sim_id ;;
  address <- attr _sirepo_server ;;
  data <- in_env (remote (CallAuth address "srw" sim_id)
                         (sb_auth address "srw" sim_id)) ;;
  raw <- in_env (remote (CallGetDatafile data)
                        (sb_get_datafile address data)) ;;
  text <- lift (match decode_utf8 raw with
                | Some t => inr t
                | None => inl Py.UnicodeDecodeError
                end) ;;
  let units := final_units text in
  optic <- attr optic_name ;;
  element <- lift (find_element (beamline data) "title" (Some optic)) ;;
  x1000 <- lift (Py.mul_1000 x) ;;
  p0 <- attr param0 ;;
  let data := set_element element (Some p0) x1000 data in
  y1000 <- lift (Py.mul_1000 y) ;;
  p1 <- attr param1 ;;
  let data := set_element element p1 y1000 data in
  wname <- attr watch_name ;;
  watch <- lift (find_element (beamline data) "title" wname) ;;
  watch_id <- element_get watch (Some "id") data ;;
  let data := set_report ("watchpointReport" +:+ py_str watch_id) data in
  in_env (remote (CallRunSimulation data) (sb_run_simulation address data)) ;;;
  in_env (open_wb srw_file) ;;;
  result <- in_env (remote (CallGetDatafile data)
                           (sb_get_datafile address data)) ;;
  in_env (write srw_file result) ;;;
  ret_ <- in_env (read_srw_file srw_file) ;;
  put put_image (Py.PyStr datum_id) ;;;
  v <- subscript ret_ (Some "shape") ;;
  put put_shape v ;;;
  v <- subscript ret_ (Some "mean") ;;
  put put_mean v ;;;
  v <- subscript ret_ (Some "photon_energy") ;;
  put put_photon_energy v ;;;
  v <- subscript ret_ (Some "horizontal_extent") ;;
  put put_horizontal_extent v ;;;
  v <- subscript ret_ (Some "vertical_extent") ;;
  put put_vertical_extent v ;;;
  rid <- reg_insert_resource "srw" srw_file [] ;;
  modify (on_self (with_resource_id (Some rid))) ;;;
  rid' <- attr _resource_id ;;
  reg_insert_datum rid' datum_id [] ;;;
  ret NullStatus.

(** [SRWDetector.describe] *)
Definition describe : M state (Py.dict (Py.dict Py.pyval)) :=
  d <- gets self ;;
  res <- lift (Device_describe (ophyd d) (name d) (sig d)) ;;
  d <- gets self ;;
  entry <- subscript res (Some (component_name d "image")) ;;
  ret (Py.set res (Some (component_name d "image"))
         (Py.set entry (Some "external") (Py.PyStr "FILESTORE"))).

(** [SRWDetector.unstage] *)
Definition unstage : M state unit :=
  modify (on_self (fun d => with_ophyd (Device_unstage (ophyd d)) d)) ;;;
  modify (on_self (with_resource_id None)) ;;;
  modify (on_self (with_result [])).

(** *** Failures of the remote service

    [remote_failure s e]: started in [s], [trigger] gets as far as a
    request to the remote service or a lookup in its beamline, and that
    step raises [e]: the authentication, the lookup of the optical element,
    the lookup of the watch-point, or the simulation run. *)
Inductive remote_failure (s : state) (e : Py.exn) : Prop :=
  | auth_failure x y sv
      (Hx : fst (motor_value (Some (_motor0 (self s))) (Some (_field0 (self s)))
                   (env s)) = inr x)
      (Hy : fst (motor_value (_motor1 (self s)) (_field1 (self s)) (env s))
            = inr y)
      (Hauth : sb_auth (_sirepo_server (self s)) "srw" (_sim_id (self s))
                 (server (env s)) = (inl e, sv))
  | element_not_found x y data sv1 raw sv2 text
      (Hx : fst (motor_value (Some (_motor0 (self s))) (Some (_field0 (self s)))
                   (env s)) = inr x)
      (Hy : fst (motor_value (_motor1 (self s)) (_field1 (self s)) (env s))
            = inr y)
      (Hauth : sb_auth (_sirepo_server (self s)) "srw" (_sim_id (self s))
                 (server (env s)) = (inr data, sv1))
      (Hraw : sb_get_datafile (_sirepo_server (self s)) data sv1
              = (inr raw, sv2))
      (Htext : decode_utf8 raw = Some text)
      (Hel : find_element (beamline data) "title" (Some (optic_name (self s)))
             = inl e)
  | watch_not_found x y data sv1 raw sv2 text element x1000 y1000
      (Hx : fst (motor_value (Some (_motor0 (self s))) (Some (_field0 (self s)))
                   (env s)) = inr x)
      (Hy : fst (motor_value (_motor1 (self s)) (_field1 (self s)) (env s))
            = inr y)
      (Hauth : sb_auth (_sirepo_server (self s)) "srw" (_sim_id (self s))
                 (server (env s)) = (inr data, sv1))
      (Hraw : sb_get_datafile (_sirepo_server (self s)) data sv1
              = (inr raw, sv2))
      (Htext : decode_utf8 raw = Some text)
      (Hel : find_element (beamline data) "title" (Some (optic_name (self s)))
             = inr element)
      (Hx1000 : Py.mul_1000 x = inr x1000)
      (Hy1000 : Py.mul_1000 y = inr y1000)
      (Hwatch : find_element
                  (beamline
                     (set_element element (param1 (self s)) y1000
                        (set_element element (Some (param0 (self s))) x1000
                           data)))
                  "title" (watch_name (self s)) = inl e)
  | run_failure x y data sv1 raw sv2 text element x1000 y1000 watch
      watch_element watch_id sv3
      (Hx : fst (motor_value (Some (_motor0 (self s))) (Some (_field0 (self s)))
                   (env s)) = inr x)
      (Hy : fst (motor_value (_motor1 (self s)) (_field1 (self s)) (env s))
            = inr y)
      (Hauth : sb_auth (_sirepo_server (self s)) "srw" (_sim_id (self s))
                 (server (env s)) = (inr data, sv1))
      (Hraw : sb_get_datafile (_sirepo_server (self s)) data sv1
              = (inr raw, sv2))
      (Htext : decode_utf8 raw = Some text)
      (Hel : find_element (beamline data) "title" (Some (optic_name (self s)))
             = inr element)
      (Hx1000 : Py.mul_1000 x = inr x1000)
      (Hy1000 : Py.mul_1000 y = inr y1000)
      (Hwatch : find_element
                  (beamline
                     (set_element element (param1 (self s)) y1000
                        (set_element element (Some (param0 (self s))) x1000
                           data)))
                  "title" (watch_name (self s)) = inr watch)
      (Hwe : beamline
               (set_element element (param1 (self s)) y1000
                  (set_element element (Some (param0 (self s))) x1000 data))
             !! watch = Some watch_element)
      (Hid : Py.get watch_element (Some "id") = Some watch_id)
      (Hrun : sb_run_simulation (_sirepo_server (self s))
                (set_report ("watchpointReport" +:+ py_str watch_id)
                   (set_element element (param1 (self s)) y1000
                      (set_element element (Some (param0 (self s))) x1000
                         data)))
                sv2 = (inl e, sv3)).

(** Two data file texts that agree everywhere but in the units substring
    [trigger] cuts out of them. *)
Definition differ_only_in_units (t1 t2 : string) : Prop :=
  exists pre post : list ascii,
    list_ascii_of_string t1 = pre ++ final_units t1 ++ post /\
    list_ascii_of_string t2 = pre ++ final_units t2 ++ post.

(** ** The discovery script *)

(** The terminal: what the operator will type, and what has been shown so
    far ([input] prompts and [print] lines, in order). *)
Inductive io :=
  | Prompted (prompt : string)
  | Printed (line : string).

Record console := {
  stdin : list string;
  tty : list io;
  outside : world }.

Definition input (prompt : string) : M console string :=
  fun c =>
    match stdin c with
    | [] =>
        (inl Py.EOFError,
         {| stdin := []; tty := tty c ++ [Prompted prompt];
            outside := outside c |})
    | l :: rest =>
        (inr l,
         {| stdin := rest; tty := tty c ++ [Prompted prompt];
            outside := outside c |})
    end.

Definition print (line : string) : M console unit :=
  modify (fun c =>
    {| stdin := stdin c; tty := tty c ++ [Printed line];
       outside := outside c |}).

Definition in_world {A} (m : M world A) : M console A :=
  fun c =>
    let '(r, w) := m (outside c) in
    (r, {| stdin := stdin c; tty := tty c; outside := w |}).

(** The prompts among what the terminal has shown. *)
Fixpoint prompts (t : list io) : list string :=
  match t with
  | [] => []
  | Prompted p :: t' => p :: prompts t'
  | Printed _ :: t' => prompts t'
  end.

Definition non_parameters : list Py.key :=
  [Some "title"; Some "shape"; Some "type"; Some "id"].

(** The loop of [get_dict_parameters]: the list printed grows with every
    parameter met. *)
Fixpoint get_dict_parameters_loop (ks parameters : list Py.key)
  : M console unit :=
  match ks with
  | [] => ret tt
  | k :: ks' =>
      if decide (k ∈ non_parameters) then
        get_dict_parameters_loop ks' parameters
      else
        let parameters := parameters ++ [k] in
        print ("PARAMETERS:        " +:+ repr_keys parameters +:+ " " +:+
               String "010"%char EmptyString) ;;;
        get_dict_parameters_loop ks' parameters
  end.

Definition get_dict_parameters (d : Py.dict Py.pyval) : M console unit :=
  get_dict_parameters_loop (Py.keys d) [].

(** ['OPTICAL ELEMENT:    ' + v] *)
Definition concat_title (v : Py.pyval) : Py.exn + string :=
  match v with
  | Py.PyStr s => inr ("OPTICAL ELEMENT:    " +:+ s)
  | _ => inl (Py.TypeError "can only concatenate str to str")
  end.

(** The loop of [get_options] over the beamline. *)
Fixpoint get_options_loop (elements : list (Py.dict Py.pyval))
  (watchpoints : Py.dict string) : M console (Py.dict string) :=
  match elements with
  | [] => ret watchpoints
  | e :: rest =>
      title <- subscript e (Some "title") ;;
      line <- lift (concat_title title) ;;
      print line ;;;
      get_dict_parameters e ;;;
      type <- subscript e (Some "type") ;;
      if Py.eq_str type "watch" then
        title <- subscript e (Some "title") ;;
        position <- subscript e (Some "position") ;;
        get_options_loop rest
          (Py.set watchpoints
             (match title with Py.PyStr t => Some t | _ => None end)
             (py_str position))
      else
        get_options_loop rest watchpoints
  end.

(** [get_options], reading the global [sim_id]. *)
Definition get_options (sim_id : string) : M console unit :=
  let address := "http://10.10.10.10:8000" in
  data <- in_world (remote (CallAuth address "srw" (Some sim_id))
                           (sb_auth address "srw" (Some sim_id))) ;;
  print "Tunable parameters for Bluesky scan: " ;;;
  watchpoints <- get_options_loop (beamline data) [] ;;
  print ("WATCHPOINTS:       " +:+ repr_watchpoints watchpoints) ;;;
  if (length watchpoints <? 1)%nat then
    raise (Py.ValueError "No watchpoints found. This simulation will not work")
  else ret tt.

(** The statements at module level.  [Component(name=optic_id)] provides the
    two axes [c.x] and [c.y], whose readbacks are named after the component;
    [db] is the data broker of the session the script is run in. *)
Definition script (db : reg_ref) : M console SRWDetector :=
  sim_id <- input "Please enter sim ID: " ;;
  get_options sim_id ;;;
  optic_id <- input "Please select optical element: " ;;
  param0 <- input "Please select parameter: " ;;
  param1 <- input
    "Please select another parameter or press ENTER to only use one: " ;;
  watch_name <- input "Please select watchpoint: " ;;
  srw_det <- in_world
    (__init__ "srw_det" optic_id param0
       (optic_id +:+ "_x") (optic_id +:+ "_x")
       (Some (optic_id +:+ "_y")) (Some (optic_id +:+ "_y"))
       (Some param1) (Some db) (Some sim_id) (Some watch_name)
       "http://10.10.10.10:8000" no_kwargs) ;;
  let srw_det :=
    with_ophyd (Device_setattr "read_attrs"
                  ["image"; "mean"; "photon_energy"] (ophyd srw_det)) srw_det in
  let srw_det :=
    with_ophyd (Device_setattr "configuration_attrs"
                  ["horizontal_extent"; "vertical_extent"; "shape"]
                  (ophyd srw_det)) srw_det in
  ret srw_det.

(** A step of the script that asks nothing: it may print, but the prompts
    shown and the pending input stay as they are. *)
Definition quiet (c c' : console) : Prop :=
  prompts (tty c') = prompts (tty c) /\ stdin c' = stdin c.

(** An element that the loop of [get_options] does not record as a
    watch-point. *)
Definition not_watch (e : Py.dict Py.pyval) : Prop :=
  forall v, Py.get e (Some "type") = Some v -> Py.eq_str v "watch" = false.

(** An element with a string title and a type, as the service sends them. *)
Definition titled (e : Py.dict Py.pyval) : Prop :=
  (exists t, Py.get e (Some "title") = Some (Py.PyStr t)) /\
  is_Some (Py.get e (Some "type")).

(** *** Stages of a trigger

    The conditions under which [trigger], started in [s], gets past each
    of its stages, with the values the stage yields. *)

(** Both motors have been read. *)
Definition motors_read (s : state) (x y : Py.pyval) : Prop :=
  fst (motor_value (Some (_motor0 (self s))) (Some (_field0 (self s)))
         (env s)) = inr x /\
  fst (motor_value (_motor1 (self s)) (_field1 (self s)) (env s)) = inr y.

(** The service has authenticated the session and the first download has
    arrived and decodes. *)
Definition session_opened (s : state) (data : sim_data) (sv1 : srv)
  (raw : bytes) (sv2 : srv) (text : string) : Prop :=
  sb_auth (_sirepo_server (self s)) "srw" (_sim_id (self s)) (server (env s))
  = (inr data, sv1) /\
  sb_get_datafile (_sirepo_server (self s)) data sv1 = (inr raw, sv2) /\
  decode_utf8 raw = Some text.

(** The data with both parameters of the element assigned. *)
Definition assigned (s : state) (data : sim_data) (element : nat)
  (x1000 y1000 : Py.pyval) : sim_data :=
  set_element element (param1 (self s)) y1000
    (set_element element (Some (param0 (self s))) x1000 data).

(** The data the simulation is run on. *)
Definition run_data (s : state) (data : sim_data) (element : nat)
  (x1000 y1000 watch_id : Py.pyval) : sim_data :=
  set_report ("watchpointReport" +:+ py_str watch_id)
    (assigned s data element x1000 y1000).

(** The optical element has been found, both readings scaled and
    assigned, and the watch-point found with an id. *)
Definition model_prepared (s : state) (x y : Py.pyval) (data : sim_data)
  (element : nat) (x1000 y1000 : Py.pyval) (watch : nat)
  (watch_id : Py.pyval) : Prop :=
  find_element (beamline data) "title" (Some (optic_name (self s)))
  = inr element /\
  Py.mul_1000 x = inr x1000 /\ Py.mul_1000 y = inr y1000 /\
  find_element (beamline (assigned s data element x1000 y1000)) "title"
    (watch_name (self s)) = inr watch /\
  exists e, beamline (assigned s data element x1000 y1000) !! watch = Some e /\
            Py.get e (Some "id") = Some watch_id.

(** The file the trigger started in [s] writes to. *)
Definition datum_path (s : state) : string :=
  srw_file_path (now (env s)) (uuid4 (uids (env s))).

(** The requests of a trigger up to and including the run. *)
Definition requests_to_run (s : state) (data data_run : sim_data) : list call :=
  [CallAuth (_sirepo_server (self s)) "srw" (_sim_id (self s));
   CallGetDatafile data; CallRunSimulation data_run].

(** *** What the discovery script prints and accepts *)

(** The lists [get_dict_parameters] prints: one per parameter, each with
    one parameter more than the one before. *)
Fixpoint growing (acc l : list Py.key) : list (list Py.key) :=
  match l with
  | [] => []
  | k :: l' => (acc ++ [k]) :: growing (acc ++ [k]) l'
  end.

Definition parameter_line (ps : list Py.key) : string :=
  "PARAMETERS:        " +:+ repr_keys ps +:+ " " +:+
  String "010"%char EmptyString.

(** An element of type ['watch']. *)
Definition is_watch (e : Py.dict Py.pyval) : Prop :=
  exists v, Py.get e (Some "type") = Some v /\ Py.eq_str v "watch" = true.

(** An element [get_options] can list: a string title, a type and, for a
    watch-point, a position. *)
Definition listable (e : Py.dict Py.pyval) : Prop :=
  titled e /\ (is_watch e -> is_Some (Py.get e (Some "position"))).

(** The prompts of the script after the first one. *)
Definition later_prompts : list string :=
  ["Please select optical element: ";
   "Please select parameter: ";
   "Please select another parameter or press ENTER to only use one: ";
   "Please select watchpoint: "].

End Adapter.

(** ** A stub service

    A canned remote service, reader and device base of the kind a test
    would plug in: the server serves its queued downloads in order and
    knows one simulation, ["sim1"], whose beamline has an aperture and a
    watch-point. *)

Module Stub.

#[local] Instance opaque : Opaque :=
  {| srv := list bytes; extra := unit; base := bool; time := string;
     kwargs := unit |}.

Definition aperture : Py.dict Py.pyval :=
  [(Some "title", Py.PyStr "Aperture");
   (Some "type", Py.PyStr "aperture");
   (Some "id", Py.PyInt 6);
   (Some "position", Py.PyFloat 20);
   (Some "horizontalOffset", Py.PyInt 0);
   (Some "verticalOffset", Py.PyInt 0)].

Definition watchpoint : Py.dict Py.pyval :=
  [(Some "title", Py.PyStr "W60");
   (Some "type", Py.PyStr "watch");
   (Some "id", Py.PyInt 7);
   (Some "position", Py.PyFloat 60)].

Definition data0 : sim_data :=
  {| beamline := [aperture; watchpoint]; report := None; others := tt |}.

(** A second simulation, ["sim2"], has no watch-point. *)
Definition data_no_watch : sim_data :=
  {| beamline := [aperture]; report := None; others := tt |}.

Definition auth (address sim_type : string) (sim_id : option string)
  (s : list bytes) : (Py.exn + sim_data) * list bytes :=
  if decide (sim_id = Some "sim1") then (inr data0, s)
  else if decide (sim_id = Some "sim2") then (inr data_no_watch, s)
  else (inl (Py.Raised "AssertionError" "bluesky_auth failed"), s).

Definition get_datafile (address : string) (d : sim_data)
  (s : list bytes) : (Py.exn + bytes) * list bytes :=
  match s with
  | b :: s' => (inr b, s')
  | [] => (inl (Py.Raised "AssertionError" "download failed"), [])
  end.

Definition run_simulation (address : string) (d : sim_data)
  (s : list bytes) : (Py.exn + unit) * list bytes :=
  (inr tt, s).

(** The reader of the spec's example. *)
Definition reader (b : bytes) : Py.exn + Py.dict Py.pyval :=
  inr [(Some "shape", Py.PyTuple [Py.PyInt 100; Py.PyInt 100]);
       (Some "mean", Py.PyFloat 5);
       (Some "photon_energy", Py.PyInt 9000);
       (Some "horizontal_extent", Py.PyTuple [Py.PyInt (-1); Py.PyInt 1]);
       (Some "vertical_extent", Py.PyTuple [Py.PyInt (-1); Py.PyInt 1])].

Definition str (v : Py.pyval) : string :=
  match v with
  | Py.PyStr s => s
  | Py.PyInt n => pretty n
  | _ => "?"
  end.

Definition uid (n : nat) : string := "uid-" +:+ pretty n.

Definition describe_signals (b : bool) (name : string) (s : signals)
  : Py.exn + Py.dict (Py.dict Py.pyval) :=
  inr (map (fun a => (Some (name +:+ "_" +:+ a),
                      [(Some "source", Py.PyStr ("SIM:" +:+ name +:+ "_" +:+ a))]))
           ["image"; "shape"; "mean"; "photon_energy";
            "horizontal_extent"; "vertical_extent"]).

Definition no_signals : signals :=
  {| image := Py.PyNone; shape := Py.PyNone; mean := Py.PyNone;
     photon_energy := Py.PyNone; horizontal_extent := Py.PyNone;
     vertical_extent := Py.PyNone |}.

Definition collaborators : Collaborators :=
  {| sb_auth := auth;
     sb_get_datafile := get_datafile;
     sb_run_simulation := run_simulation;
     decode_utf8 := fun b => Some (string_of_list_byte b);
     read_srw := reader;
     py_str := str;
     uuid4 := uid;
     strftime := fun (t : string) _ => t;
     repr_keys := fun ks => String.concat ", " (map (default "None") ks);
     repr_watchpoints := fun d => String.concat ", " (map snd d);
     Device_init := fun _ _ => (false, no_signals);
     Device_trigger := fun b => b;
     Device_unstage := fun _ => false;
     Device_describe := describe_signals;
     Device_setattr := fun _ _ b => b;
     no_kwargs := tt |}.

(** Motor [m] reads 1.0 on the x axis and 2.0 on any other. *)
Definition motor_readings (m : string) : reading :=
  [(Some m, [(Some "value",
              Py.PyFloat (if String.eqb m "Aperture_x" then 1 else 2))])].

Definition world0 (downloads : list bytes) : world :=
  {| server := downloads; calls := []; uids := 0%nat;
     now := "2019/07/04";
     dirs := {[ "/tmp/data/2019/07/04" ]}; files := ∅;
     db_reg := {| resources := []; datums := [] |};
     motors := motor_readings |}.

(** The detector the script would build for the aperture. *)
Definition det0 (sim_id : option string) : SRWDetector :=
  {| ophyd := false; name := "srw_det"; sig := no_signals;
     reg := Some DbReg; optic_name := "Aperture";
     param0 := "horizontalOffset"; param1 := Some "verticalOffset";
     _motor0 := "Aperture_x"; _motor1 := Some "Aperture_y";
     _field0 := "Aperture_x"; _field1 := Some "Aperture_y";
     _resource_id := None; _result := []; _sim_id := sim_id;
     watch_name := Some "W60";
     _sirepo_server := "http://10.10.10.10:8000"; _hints := None |}.

Definition state0 (downloads : list bytes) : state :=
  {| self := det0 (Some "sim1"); env := world0 downloads |}.

(** [trigger] on the stub. *)
Abbreviation stub_trigger := (@trigger opaque collaborators).

(** A data file text whose units, between brackets, start at offset 211. *)
Fixpoint padding (n : nat) : string :=
  match n with
  | O => EmptyString
  | S k => String "a"%char (padding k)
  end.

Definition datafile (units : string) : bytes :=
  list_byte_of_string
    (padding 210 +:+ "[" +:+ units +:+ "]" +:+ padding 100).

(** The console of an operator about to answer the prompts. *)
Definition console0 (answers : list string) : console :=
  {| stdin := answers; tty := []; outside := world0 [] |}.

(** The stub with another decoder and another reader. *)
Definition variant (dec : bytes -> option string)
  (rd : bytes -> Py.exn + Py.dict Py.pyval) : Collaborators :=
  {| sb_auth := auth;
     sb_get_datafile := get_datafile;
     sb_run_simulation := run_simulation;
     decode_utf8 := dec;
     read_srw := rd;
     py_str := str;
     uuid4 := uid;
     strftime := fun (t : string) _ => t;
     repr_keys := fun ks => String.concat ", " (map (default "None") ks);
     repr_watchpoints := fun d => String.concat ", " (map snd d);
     Device_init := fun _ _ => (false, no_signals);
     Device_trigger := fun b => b;
     Device_unstage := fun _ => false;
     Device_describe := describe_signals;
     Device_setattr := fun _ _ b => b;
     no_kwargs := tt |}.

(** A reader that finds a mean and nothing else. *)
Definition short_reader (b : bytes) : Py.exn + Py.dict Py.pyval :=
  inr [(Some "mean", Py.PyFloat 5)].

(** A service that accepts any simulation id. *)
Definition lenient_auth (address sim_type : string) (sim_id : option string)
  (s : list bytes) : (Py.exn + sim_data) * list bytes :=
  (inr data0, s).

Definition lenient : Collaborators :=
  {| sb_auth := lenient_auth;
     sb_get_datafile := get_datafile;
     sb_run_simulation := run_simulation;
     decode_utf8 := fun b => Some (string_of_list_byte b);
     read_srw := reader;
     py_str := str;
     uuid4 := uid;
     strftime := fun (t : string) _ => t;
     repr_keys := fun ks => String.concat ", " (map (default "None") ks);
     repr_watchpoints := fun d => String.concat ", " (map snd d);
     Device_init := fun _ _ => (false, no_signals);
     Device_trigger := fun b => b;
     Device_unstage := fun _ => false;
     Device_describe := describe_signals;
     Device_setattr := fun _ _ b => b;
     no_kwargs := tt |}.

(** A reader that rejects every file. *)
Definition failing_reader (b : bytes) : Py.exn + Py.dict Py.pyval :=
  inl (Py.Raised "ValueError" "malformed file").

(** A world with other directories and other motors. *)
Definition world1 (ds : gset string) (ms : string -> reading)
  (downloads : list bytes) : world :=
  {| server := downloads; calls := []; uids := 0%nat;
     now := "2019/07/04"; dirs := ds; files := ∅;
     db_reg := {| resources := []; datums := [] |};
     motors := ms |}.

(** Motors whose axes hold no value yet, and motors that know no field. *)
Definition idle_motors (m : string) : reading :=
  [(Some m, [(Some "value", Py.PyNone)])].

Definition blank_motors (m : string) : reading := [].

(** The detector as constructed with no registry. *)
Definition det_no_reg : SRWDetector :=
  {| ophyd := false; name := "srw_det"; sig := no_signals;
     reg := None; optic_name := "Aperture";
     param0 := "horizontalOffset"; param1 := Some "verticalOffset";
     _motor0 := "Aperture_x"; _motor1 := Some "Aperture_y";
     _field0 := "Aperture_x"; _field1 := Some "Aperture_y";
     _resource_id := None; _result := []; _sim_id := Some "sim1";
     watch_name := Some "W60";
     _sirepo_server := "http://10.10.10.10:8000"; _hints := None |}.

End Stub.

(** * Properties *)

(** ** Dictionaries and the monad *)

Lemma get_set_eq {V} (d : Py.dict V) k v : Py.get (Py.set d k v) k = Some v.
Proof.
  induction d as [|[k' v'] d IH]; simpl.
  - destruct (decide (k = k)); congruence.
  - destruct (decide (k' = k)) as [->|Hne]; simpl.
    + destruct (decide (k = k)); congruence.
    + destruct (decide (k' = k)); [congruence | exact IH].
Qed.

Lemma get_set_ne {V} (d : Py.dict V) k k' v :
  k <> k' -> Py.get (Py.set d k v) k' = Py.get d k'.
Proof.
  intros Hne. induction d as [|[k0 v0] d IH]; simpl.
  - destruct (decide (k = k')); congruence.
  - destruct (decide (k0 = k)) as [->|Hk]; simpl.
    + destruct (decide (k = k')); congruence.
    + destruct (decide (k0 = k')); [reflexivity | exact IH].
Qed.

Lemma bind_inr {S A B} (m : M S A) (k : A -> M S B) s b s' :
  bind m k s = (inr b, s') ->
  exists a s1, m s = (inr a, s1) /\ k a s1 = (inr b, s').
Proof.
  unfold bind. destruct (m s) as [[e|a] s1]; [discriminate | eauto].
Qed.

Lemma bind_inl {S A B} (m : M S A) (k : A -> M S B) s e s' :
  bind m k s = (inl e, s') ->
  m s = (inl e, s') \/ exists a s1, m s = (inr a, s1) /\ k a s1 = (inl e, s').
Proof.
  unfold bind. destruct (m s) as [[e0|a] s1]; [intros [= -> ->] | ]; eauto.
Qed.

Lemma bind_ok {S A B} (m : M S A) (k : A -> M S B) s a s1 :
  m s = (inr a, s1) -> bind m k s = k a s1.
Proof. unfold bind. now intros ->. Qed.

Lemma bind_fail {S A B} (m : M S A) (k : A -> M S B) s e s1 :
  m s = (inl e, s1) -> bind m k s = (inl e, s1).
Proof. unfold bind. now intros ->. Qed.

Lemma subscript_inv {S V} (d : Py.dict V) k (s s' : S) r :
  subscript d k s = (r, s') ->
  s' = s /\
  match r with
  | inr v => Py.get d k = Some v
  | inl e => Py.get d k = None
  end.
Proof.
  unfold subscript. destruct (Py.get d k); intros [= <- <-]; auto.
Qed.

Section Properties.

Context `{Collaborators}.

Lemma motor_value_pure motor field (w w' : world) r :
  motor_value motor field w = (r, w') -> w' = w.
Proof.
  destruct motor as [m|]; simpl.
  - unfold bind, gets.
    destruct (subscript _ field w) as [[e|entry] w1] eqn:E1.
    + apply subscript_inv in E1 as [-> _]. now intros [= _ <-].
    + apply subscript_inv in E1 as [-> _].
      intros E2. now apply subscript_inv in E2 as [-> _].
  - now intros [= _ <-].
Qed.

Lemma motor_value_run motor field (w : world) :
  motor_value motor field w = (fst (motor_value motor field w), w).
Proof.
  destruct (motor_value motor field w) as [r w'] eqn:E.
  apply motor_value_pure in E as ->. reflexivity.
Qed.

Lemma in_env_motor_value motor field (s : state) :
  in_env (motor_value motor field) s
  = (fst (motor_value motor field (env s)), s).
Proof.
  unfold in_env. rewrite motor_value_run. now destruct s.
Qed.

(** ** Construction *)

(** C6: constructing the adapter without a simulation id ([None], or the
    empty string the assertion equally rejects) raises [AssertionError] and
    leaves the world, and with it the log of remote requests, as it was;
    with a simulation id the constructor returns a detector holding every
    argument as given, again without touching the world. *)
Theorem init_requires_sim_id
  (nm optic p0 m0 f0 : string) (m1 f1 p1 : option string)
  (r : option reg_ref) (wname : option string) (address : string)
  (kw : kwargs) (w : world) :
  (forall sid, Py.truthy sid = false ->
     exists msg,
       __init__ nm optic p0 m0 f0 m1 f1 p1 r sid wname address kw w
       = (inl (Py.AssertionError msg), w)) /\
  Py.truthy None = false /\
  (forall sid, sid <> "" ->
     exists d,
       __init__ nm optic p0 m0 f0 m1 f1 p1 r (Some sid) wname address kw w
       = (inr d, w) /\
       name d = nm /\ optic_name d = optic /\ param0 d = p0 /\
       _motor0 d = m0 /\ _field0 d = f0 /\ _motor1 d = m1 /\
       _field1 d = f1 /\ param1 d = p1 /\ reg d = r /\
       _sim_id d = Some sid /\ watch_name d = wname /\
       _sirepo_server d = address /\
       _resource_id d = None /\ _result d = [] /\ _hints d = None /\
       (ophyd d, sig d) = Device_init nm kw).
Proof.
  split; [|split; [reflexivity|]].
  - intros sid Hsid. unfold __init__.
    destruct (Device_init nm kw) as [b sg]. rewrite Hsid.
    eexists. reflexivity.
  - intros sid Hsid. unfold __init__.
    destruct (Device_init nm kw) as [b sg].
    assert (Py.truthy (Some sid) = true) as ->.
    { simpl. destruct (String.eqb_spec sid ""); [contradiction | reflexivity]. }
    eexists. split; [reflexivity|]. simpl. repeat split; reflexivity.
Qed.

(** ** Unstage *)

(** C8: [unstage] always returns; afterwards the pending-result cache is
    empty and the resource id is [None]; the six signals, every other
    attribute the adapter stores, and the whole world (files, directories,
    registry, remote service) are as before.  Only the base class's own
    [unstage] acts on the base class's private state. *)
Theorem unstage_frame (s : state) :
  exists s',
    unstage s = (inr tt, s') /\
    _result (self s') = [] /\ _resource_id (self s') = None /\
    sig (self s') = sig (self s) /\
    env s' = env s /\
    files (env s') = files (env s) /\ dirs (env s') = dirs (env s) /\
    db_reg (env s') = db_reg (env s) /\
    ophyd (self s') = Device_unstage (ophyd (self s)) /\
    name (self s') = name (self s) /\ reg (self s') = reg (self s) /\
    optic_name (self s') = optic_name (self s) /\
    param0 (self s') = param0 (self s) /\ param1 (self s') = param1 (self s) /\
    _motor0 (self s') = _motor0 (self s) /\
    _motor1 (self s') = _motor1 (self s) /\
    _field0 (self s') = _field0 (self s) /\
    _field1 (self s') = _field1 (self s) /\
    _sim_id (self s') = _sim_id (self s) /\
    watch_name (self s') = watch_name (self s) /\
    _sirepo_server (self s') = _sirepo_server (self s) /\
    _hints (self s') = _hints (self s).
Proof.
  eexists. split; [reflexivity|]. simpl. repeat split; reflexivity.
Qed.

(** ** Describe *)

(** C7: whenever the base class describes the signals with an entry for
    the image and no external marking of its own, [describe] returns that
    description with the image entry, and no other, marked
    [external = "FILESTORE"], whatever the detector was constructed with;
    it leaves the state alone, and (the base description not depending on
    staging) [describe] after [unstage] returns the same marked
    description. *)
Theorem describe_marks_image (s : state) res0 entry :
  Device_describe (ophyd (self s)) (name (self s)) (sig (self s)) = inr res0 ->
  Py.get res0 (Some (component_name (self s) "image")) = Some entry ->
  (forall k m, Py.get res0 k = Some m -> Py.get m (Some "external") = None) ->
  (forall b n sg, Device_describe (Device_unstage b) n sg = Device_describe b n sg) ->
  exists res,
    describe s = (inr res, s) /\
    Py.get res (Some (component_name (self s) "image"))
    = Some (Py.set entry (Some "external") (Py.PyStr "FILESTORE")) /\
    (forall k m, Py.get res k = Some m ->
       (Py.get m (Some "external") = Some (Py.PyStr "FILESTORE") <->
        k = Some (component_name (self s) "image")) /\
       (k <> Some (component_name (self s) "image") ->
        Py.get m (Some "external") = None /\ Py.get res0 k = Some m)) /\
    fst (describe (snd (unstage s))) = inr res.
Proof.
  intros Hd Himg Hplain Hstage.
  set (img := Some (component_name (self s) "image")) in *.
  exists (Py.set res0 img (Py.set entry (Some "external") (Py.PyStr "FILESTORE"))).
  assert (Hrun : forall s0, self s0 = self s \/
                 (ophyd (self s0) = Device_unstage (ophyd (self s)) /\
                  name (self s0) = name (self s) /\ sig (self s0) = sig (self s)) ->
            describe s0 = (inr (Py.set res0 img
               (Py.set entry (Some "external") (Py.PyStr "FILESTORE"))), s0)).
  { intros s0 Hs0. unfold describe, bind, gets, lift.
    assert (Device_describe (ophyd (self s0)) (name (self s0)) (sig (self s0))
            = inr res0) as ->.
    { destruct Hs0 as [->|(-> & -> & ->)]; [exact Hd|].
      rewrite Hstage. exact Hd. }
    assert (component_name (self s0) "image" = component_name (self s) "image")
      as ->.
    { unfold component_name. destruct Hs0 as [->|(_ & -> & _)]; reflexivity. }
    fold img. unfold subscript. rewrite Himg. reflexivity. }
  split; [apply Hrun; now left|].
  split; [apply get_set_eq|].
  split.
  - intros k m Hk. destruct (decide (img = k)) as [<-|Hne].
    + rewrite get_set_eq in Hk. injection Hk as <-.
      split; [|congruence]. rewrite get_set_eq. tauto.
    + rewrite get_set_ne in Hk by exact Hne.
      pose proof (Hplain _ _ Hk) as Hnone.
      split; [|auto]. rewrite Hnone. split; [discriminate|congruence].
  - rewrite Hrun; [reflexivity|]. right. simpl. auto.
Qed.

(** ** The discovery script *)

Lemma prompts_app (a b : list io) : prompts (a ++ b) = prompts a ++ prompts b.
Proof.
  induction a as [|[p|l] a IH]; simpl; [reflexivity | now rewrite IH | exact IH].
Qed.

Lemma quiet_refl c : quiet c c.
Proof. now split. Qed.

Lemma quiet_trans c1 c2 c3 : quiet c1 c2 -> quiet c2 c3 -> quiet c1 c3.
Proof. intros [? ?] [? ?]. split; congruence. Qed.

Lemma print_quiet line c : exists c', print line c = (inr tt, c') /\ quiet c c'.
Proof.
  eexists. split; [reflexivity|]. split; simpl; [|reflexivity].
  rewrite prompts_app. simpl. apply app_nil_r.
Qed.

Lemma get_dict_parameters_loop_quiet ks : forall ps c,
  exists c', get_dict_parameters_loop ks ps c = (inr tt, c') /\ quiet c c'.
Proof.
  induction ks as [|k ks IH]; intros ps c; simpl.
  - exists c. split; [reflexivity | apply quiet_refl].
  - destruct (decide (k ∈ non_parameters)); [apply IH|].
    destruct (print_quiet ("PARAMETERS:        " +:+ repr_keys (ps ++ [k]) +:+ " "
                           +:+ String "010"%char EmptyString) c)
      as (c1 & Hp & Hq1).
    destruct (IH (ps ++ [k]) c1) as (c2 & Hl & Hq2).
    exists c2. split; [|eapply quiet_trans; eassumption].
    rewrite (bind_ok _ _ _ _ _ Hp). exact Hl.
Qed.

Lemma get_options_loop_no_watch elements : forall wp c,
  Forall not_watch elements ->
  exists r c',
    get_options_loop elements wp c = (r, c') /\ quiet c c' /\
    (forall w, r = inr w -> w = wp) /\
    (Forall titled elements -> r = inr wp).
Proof.
  induction elements as [|e rest IH]; intros wp c Hnw.
  - exists (inr wp), c. simpl. unfold ret.
    split; [reflexivity|]. split; [apply quiet_refl|].
    split; [now intros w [= <-] | reflexivity].
  - inversion Hnw as [|? ? He Hrest]; subst. simpl.
    unfold bind at 1.
    destruct (subscript e (Some "title") c) as [[err|title] c0] eqn:Et.
    { apply subscript_inv in Et as [-> Hget].
      exists (inl err), c.
      split; [reflexivity|]. split; [apply quiet_refl|].
      split; [discriminate|].
      intros Ht. inversion Ht as [|? ? [[t Htitle] _] _]; subst. congruence. }
    apply subscript_inv in Et as [-> Htitle].
    unfold bind at 1. unfold lift at 1.
    destruct (concat_title title) as [err|line] eqn:Ec.
    { exists (inl err), c.
      split; [reflexivity|]. split; [apply quiet_refl|].
      split; [discriminate|].
      intros Ht. inversion Ht as [|? ? [[t Ht'] _] _]; subst.
      rewrite Htitle in Ht'. injection Ht' as ->. discriminate. }
    destruct (print_quiet line c) as (c1 & Hp & Hq1).
    rewrite (bind_ok _ _ _ _ _ Hp).
    destruct (get_dict_parameters_loop_quiet (Py.keys e) [] c1) as (c2 & Hg & Hq2).
    unfold get_dict_parameters. rewrite (bind_ok _ _ _ _ _ Hg).
    unfold bind at 1.
    destruct (subscript e (Some "type") c2) as [[err|type] c3] eqn:Ety.
    { apply subscript_inv in Ety as [-> Hget].
      exists (inl err), c2.
      split; [reflexivity|]. split; [apply (quiet_trans _ _ _ Hq1 Hq2)|].
      split; [discriminate|].
      intros Ht. inversion Ht as [|? ? [_ [v Hv]] _]; subst. congruence. }
    apply subscript_inv in Ety as [-> Htype].
    rewrite (He _ Htype).
    destruct (IH wp c2 Hrest) as (r & c' & Hl & Hq3 & Hwp & Hok).
    exists r, c'. split; [exact Hl|].
    split; [exact (quiet_trans _ _ _ (quiet_trans _ _ _ Hq1 Hq2) Hq3)|].
    split; [exact Hwp|].
    intros Ht. inversion Ht; subst. auto.
Qed.

(** C9: when the service answers the authentication with a beamline none
    of whose elements has type ['watch'], the script ends with an
    exception after the first prompt: no other prompt is shown and only
    the simulation id has been read.  When the elements are well formed
    (a string title and a type each) the exception is the [ValueError] of
    [get_options]. *)
Theorem no_watchpoints_no_further_prompts
  (db : reg_ref) (c : console) (sim_id : string) (rest : list string)
  (data : sim_data) (sv : srv) :
  stdin c = sim_id :: rest ->
  sb_auth "http://10.10.10.10:8000" "srw" (Some sim_id) (server (outside c))
  = (inr data, sv) ->
  Forall not_watch (beamline data) ->
  exists e c',
    script db c = (inl e, c') /\
    prompts (tty c') = prompts (tty c) ++ ["Please enter sim ID: "] /\
    stdin c' = rest /\
    (Forall titled (beamline data) ->
     e = Py.ValueError "No watchpoints found. This simulation will not work").
Proof.
  intros Hin Hauth Hnw.
  set (c0 := {| stdin := rest; tty := tty c ++ [Prompted "Please enter sim ID: "];
                outside := outside c |}).
  assert (Hi : input "Please enter sim ID: " c = (inr sim_id, c0)).
  { unfold input. rewrite Hin. reflexivity. }
  set (c1 := {| stdin := stdin c0; tty := tty c0;
                outside := with_server sv
                  (calls (outside c0) ++
                   [CallAuth "http://10.10.10.10:8000" "srw" (Some sim_id)])
                  (outside c0) |}).
  assert (Ha : in_world (remote (CallAuth "http://10.10.10.10:8000" "srw" (Some sim_id))
                 (sb_auth "http://10.10.10.10:8000" "srw" (Some sim_id))) c0
               = (inr data, c1)).
  { unfold in_world, remote. simpl. rewrite Hauth. reflexivity. }
  destruct (print_quiet "Tunable parameters for Bluesky scan: " c1)
    as (c2 & Hp & Hq2).
  destruct (get_options_loop_no_watch (beamline data) [] c2 Hnw)
    as (r & c3 & Hl & Hq3 & Hwp & Hok).
  assert (Hq : quiet c0 c3).
  { eapply quiet_trans; [|exact Hq3]. eapply quiet_trans; [|exact Hq2].
    split; reflexivity. }
  assert (Hshown : forall c', quiet c0 c' ->
            prompts (tty c') = prompts (tty c) ++ ["Please enter sim ID: "] /\
            stdin c' = rest).
  { intros c' [Hpr Hst]. rewrite Hpr, Hst. simpl.
    rewrite prompts_app. auto. }
  unfold script. rewrite (bind_ok _ _ _ _ _ Hi).
  unfold get_options.
  destruct r as [err|wp].
  - exists err, c3.
    split.
    { apply bind_fail. rewrite (bind_ok _ _ _ _ _ Ha).
      rewrite (bind_ok _ _ _ _ _ Hp). apply bind_fail. exact Hl. }
    destruct (Hshown c3 Hq) as [? ?]. repeat split; try assumption.
    intros Ht. specialize (Hok Ht). discriminate.
  - rewrite (Hwp wp eq_refl) in Hl.
    destruct (print_quiet ("WATCHPOINTS:       " +:+ repr_watchpoints []) c3)
      as (c4 & Hp4 & Hq4).
    exists (Py.ValueError "No watchpoints found. This simulation will not work"), c4.
    split.
    { apply bind_fail. rewrite (bind_ok _ _ _ _ _ Ha).
      rewrite (bind_ok _ _ _ _ _ Hp). rewrite (bind_ok _ _ _ _ _ Hl).
      rewrite (bind_ok _ _ _ _ _ Hp4). reflexivity. }
    destruct (Hshown c4 (quiet_trans _ _ _ Hq Hq4)) as [? ?].
    repeat split; assumption.
Qed.

(** ** Trigger *)

Lemma in_env_inv {A} (m : M world A) (s s' : state) r :
  in_env m s = (r, s') ->
  exists w, m (env s) = (r, w) /\ s' = {| self := self s; env := w |}.
Proof.
  unfold in_env. destruct (m (env s)) as [r0 w]. intros [= <- <-]. eauto.
Qed.

Lemma remote_inv {A} c (op : srv -> (Py.exn + A) * srv) (w w' : world) r :
  remote c op w = (r, w') ->
  exists sv, op (server w) = (r, sv) /\ w' = with_server sv (calls w ++ [c]) w.
Proof.
  unfold remote. destruct (op (server w)) as [r0 sv]. intros [= <- <-]. eauto.
Qed.

Lemma in_env_remote_inv {A} c (op : srv -> (Py.exn + A) * srv) (s s' : state) r :
  in_env (remote c op) s = (r, s') ->
  exists sv, op (server (env s)) = (r, sv) /\
             s' = on_env (with_server sv (calls (env s) ++ [c])) s.
Proof.
  intros E. apply in_env_inv in E as (w & E & ->).
  apply remote_inv in E as (sv & E & ->). eauto.
Qed.

Lemma open_wb_inv path (w w' : world) r :
  open_wb path w = (r, w') ->
  match r with
  | inr _ => (dirname path ∈ dirs w) /\ w' = with_files (<[path := []]> (files w)) w
  | inl e => (dirname path ∉ dirs w) /\ w' = w /\ e = Py.FileNotFoundError path
  end.
Proof.
  unfold open_wb. destruct (decide (dirname path ∈ dirs w)); intros [= <- <-]; auto.
Qed.

Lemma read_srw_file_inv path (w w' : world) r :
  read_srw_file path w = (r, w') ->
  w' = w /\
  match files w !! path with
  | Some b => r = read_srw b
  | None => r = inl (Py.FileNotFoundError path)
  end.
Proof.
  unfold read_srw_file. destruct (files w !! path); intros [= <- <-]; auto.
Qed.

(** Undo one successful step of a computation. *)
Tactic Notation "step" hyp(H) ident(a) ident(s) ident(E) :=
  apply bind_inr in H as (a & s & E & H).

Tactic Notation "attr_step" hyp(H) ident(a) :=
  let s := fresh "s" in
  let E := fresh "E" in
  step H a s E; unfold attr, gets in E; injection E as <- <-.

Tactic Notation "unit_step" hyp(H) :=
  let a := fresh "u" in
  let s := fresh "s" in
  let E := fresh "E" in
  step H a s E; unfold put, modify in E; injection E as _ <-.

Tactic Notation "lift_step" hyp(H) ident(a) ident(E) :=
  let s := fresh "s" in
  step H a s E; unfold lift in E; injection E as E <-.

Tactic Notation "subscript_step" hyp(H) ident(a) ident(E) :=
  let s := fresh "s" in
  step H a s E; apply subscript_inv in E as [-> E].

(** Normalise record updates and projections of the store, leaving file
    maps and strings alone.  Updates are to be normalised one at a time, as
    they appear: each setter mentions the record it updates once per
    field. *)
Ltac store_unfold :=
  unfold on_self, on_env, with_server, with_uids, with_files, with_db_reg,
    with_ophyd, with_sig, with_resource_id, with_result, with_hints,
    put_image, put_shape, put_mean, put_photon_energy,
    put_horizontal_extent, put_vertical_extent.

Ltac store_unfold_in H :=
  unfold on_self, on_env, with_server, with_uids, with_files, with_db_reg,
    with_ophyd, with_sig, with_resource_id, with_result, with_hints,
    put_image, put_shape, put_mean, put_photon_energy,
    put_horizontal_extent, put_vertical_extent in H.

Ltac store_cbn :=
  cbn [self env server calls uids now dirs files db_reg motors resources
       datums ophyd name sig reg optic_name param0 param1 _motor0 _motor1
       _field0 _field1 _resource_id _result _sim_id watch_name
       _sirepo_server _hints image shape mean photon_energy
       horizontal_extent vertical_extent res_uid res_spec res_path
       res_kwargs datum_resource datum_id datum_kwargs fst snd].

Ltac store_cbn_in H :=
  cbn [self env server calls uids now dirs files db_reg motors resources
       datums ophyd name sig reg optic_name param0 param1 _motor0 _motor1
       _field0 _field1 _resource_id _result _sim_id watch_name
       _sirepo_server _hints image shape mean photon_energy
       horizontal_extent vertical_extent res_uid res_spec res_path
       res_kwargs datum_resource datum_id datum_kwargs fst snd] in H.

Ltac norm := store_unfold; store_cbn.
Ltac norm_in H := store_unfold_in H; store_cbn_in H.

Lemma write_after_open path (result : bytes) (f : gmap string bytes) :
  <[path := default [] (<[path := []]> f !! path) ++ result]> (<[path := []]> f)
  = <[path := result]> f.
Proof.
  rewrite lookup_insert_eq. simpl. apply insert_insert_eq.
Qed.

Lemma element_get_inv {S} i k (d : sim_data) (s s' : S) v :
  element_get i k d s = (inr v, s') ->
  s' = s /\ exists e, beamline d !! i = Some e /\ Py.get e k = Some v.
Proof.
  unfold element_get. destruct (beamline d !! i) as [e|]; [|discriminate].
  intros E. apply subscript_inv in E as [-> E]. eauto.
Qed.

(** What a trigger that returns has done, step by step. *)
Lemma trigger_inr (s : state) st s' :
  trigger s = (inr st, s') ->
  exists x y x1000 y1000 data sv1 raw sv2 text element watch watch_id sv3
         result sv4 ret_ v1 v2 v3 v4 v5,
    let d := self s in
    let w := env s in
    let address := _sirepo_server d in
    let did := uuid4 (uids w) in
    let rid := uuid4 (S (uids w)) in
    let path := srw_file_path (now w) did in
    let data2 :=
      set_element element (param1 d) y1000
        (set_element element (Some (param0 d)) x1000 data) in
    let data3 := set_report ("watchpointReport" +:+ py_str watch_id) data2 in
    fst (motor_value (Some (_motor0 d)) (Some (_field0 d)) w) = inr x /\
    fst (motor_value (_motor1 d) (_field1 d) w) = inr y /\
    Py.mul_1000 x = inr x1000 /\ Py.mul_1000 y = inr y1000 /\
    sb_auth address "srw" (_sim_id d) (server w) = (inr data, sv1) /\
    sb_get_datafile address data sv1 = (inr raw, sv2) /\
    decode_utf8 raw = Some text /\
    find_element (beamline data) "title" (Some (optic_name d)) = inr element /\
    find_element (beamline data2) "title" (watch_name d) = inr watch /\
    (exists e, beamline data2 !! watch = Some e /\
               Py.get e (Some "id") = Some watch_id) /\
    sb_run_simulation address data3 sv2 = (inr tt, sv3) /\
    (dirname path ∈ dirs w) /\
    sb_get_datafile address data3 sv3 = (inr result, sv4) /\
    read_srw result = inr ret_ /\
    Py.get ret_ (Some "shape") = Some v1 /\
    Py.get ret_ (Some "mean") = Some v2 /\
    Py.get ret_ (Some "photon_energy") = Some v3 /\
    Py.get ret_ (Some "horizontal_extent") = Some v4 /\
    Py.get ret_ (Some "vertical_extent") = Some v5 /\
    reg d = Some DbReg /\
    st = NullStatus /\
    s' =
      {| self :=
           with_resource_id (Some rid)
             (with_sig
                {| image := Py.PyStr did; shape := v1; mean := v2;
                   photon_energy := v3; horizontal_extent := v4;
                   vertical_extent := v5 |}
                (with_ophyd (Device_trigger (ophyd d)) d));
         env :=
           {| server := sv4;
              calls := calls w ++
                [CallAuth address "srw" (_sim_id d); CallGetDatafile data;
                 CallRunSimulation data3; CallGetDatafile data3];
              uids := S (S (uids w));
              now := now w;
              dirs := dirs w;
              files := <[path := result]> (files w);
              db_reg :=
                {| resources := resources (db_reg w) ++
                     [{| res_uid := rid; res_spec := "srw"; res_path := path;
                         res_kwargs := [] |}];
                   datums := datums (db_reg w) ++
                     [{| datum_resource := Some rid; datum_id := did;
                         datum_kwargs := [] |}] |};
              motors := motors w |} |}.
Proof.
  destruct s as [d w]. destruct d, w. norm. intros Ht. unfold trigger in Ht.
  unit_step Ht. norm_in Ht.
  attr_step Ht m0. attr_step Ht f0. norm_in Ht.
  step Ht x s1 Ex. rewrite in_env_motor_value in Ex. injection Ex as Ex <-.
  norm_in Ex.
  attr_step Ht m1. attr_step Ht f1. norm_in Ht.
  step Ht y s1 Ey. rewrite in_env_motor_value in Ey. injection Ey as Ey <-.
  norm_in Ey.
  step Ht did s1 Eu. unfold in_env, new_uid in Eu. norm_in Eu.
  injection Eu as <- <-.
  attr_step Ht date. attr_step Ht sim_id. attr_step Ht address. norm_in Ht.
  step Ht data s1 Eauth. apply in_env_remote_inv in Eauth as (sv1 & Eauth & ->).
  norm_in Eauth. norm_in Ht.
  step Ht raw s1 Eraw. apply in_env_remote_inv in Eraw as (sv2 & Eraw & ->).
  norm_in Eraw. norm_in Ht.
  lift_step Ht text Etext.
  attr_step Ht optic. lift_step Ht element Eelement.
  lift_step Ht x1000 Ex1000. attr_step Ht p0.
  lift_step Ht y1000 Ey1000. attr_step Ht p1.
  attr_step Ht wname. norm_in Ht. norm_in Eelement.
  lift_step Ht watch Ewatch.
  step Ht wid s1 Ewid. apply element_get_inv in Ewid as [-> Ewid].
  step Ht u1 s1 Erun. apply in_env_remote_inv in Erun as (sv3 & Erun & ->).
  destruct u1. norm_in Erun. norm_in Ht.
  step Ht u1 s1 Eopen. apply in_env_inv in Eopen as (w1 & Eopen & ->).
  apply open_wb_inv in Eopen as [Hdir ->]. norm_in Hdir. norm_in Ht.
  step Ht result s1 Eres. apply in_env_remote_inv in Eres as (sv4 & Eres & ->).
  norm_in Eres. norm_in Ht.
  step Ht u2 s1 Ewrite. unfold in_env, write, modify in Ewrite.
  norm_in Ewrite. injection Ewrite as _ <-.
  rewrite write_after_open in Ht.
  step Ht ret_ s1 Eread. apply in_env_inv in Eread as (w2 & Eread & ->).
  apply read_srw_file_inv in Eread as [-> Eread].
  norm_in Eread. rewrite lookup_insert_eq in Eread. norm_in Ht.
  unit_step Ht. norm_in Ht.
  subscript_step Ht v1 E1. unit_step Ht. norm_in Ht.
  subscript_step Ht v2 E2. unit_step Ht. norm_in Ht.
  subscript_step Ht v3 E3. unit_step Ht. norm_in Ht.
  subscript_step Ht v4 E4. unit_step Ht. norm_in Ht.
  subscript_step Ht v5 E5. unit_step Ht. norm_in Ht.
  step Ht rid s1 Eir. unfold reg_insert_resource in Eir.
  attr_step Eir r. norm_in Eir.
  match type of Eir with
  | context [match ?r with _ => _ end] => destruct r as [[]|]; [|discriminate]
  end.
  unfold in_env, insert_resource, bind, new_uid, modify, ret in Eir.
  norm_in Eir. injection Eir as <- <-.
  unit_step Ht. norm_in Ht. attr_step Ht rid'. norm_in Ht.
  step Ht uu s1 Eid. unfold reg_insert_datum in Eid.
  attr_step Eid r. norm_in Eid.
  unfold in_env, insert_datum, modify in Eid. norm_in Eid.
  injection Eid as _ <-.
  unfold ret in Ht. destruct st. injection Ht as <-.
  exists x, y, x1000, y1000, data, sv1, raw, sv2, text, element, watch, wid,
         sv3, result, sv4, ret_, v1, v2, v3, v4, v5.
  cbv zeta. norm.
  do 6 (split; [assumption|]).
  split. { destruct (decode_utf8 raw); congruence. }
  do 6 (split; [assumption|]).
  split. { congruence. }
  do 5 (split; [assumption|]).
  split; [reflexivity|]. split; [reflexivity|].
  repeat rewrite <- app_assoc. reflexivity.
Qed.

Lemma find_element_from_lookup elements field value : forall k i,
  find_element_from elements field value k = Some i ->
  (k <= i)%nat /\
  exists e, elements !! (i - k)%nat = Some e /\ field_is e field value = true.
Proof.
  induction elements as [|e0 rest IH]; intros k i; simpl; [discriminate|].
  destruct (field_is e0 field value) eqn:Hf.
  - intros [= <-]. split; [lia|]. exists e0. rewrite Nat.sub_diag. auto.
  - intros Hi. apply IH in Hi as (Hle & e & He & Hfe).
    split; [lia|]. exists e. split; [|exact Hfe].
    replace (i - k)%nat with (S (i - S k)) by lia. exact He.
Qed.

Lemma find_element_lookup elements field value i :
  find_element elements field value = inr i ->
  exists e, elements !! i = Some e /\ field_is e field value = true.
Proof.
  unfold find_element.
  destruct (find_element_from elements field value 0) as [j|] eqn:E;
    [|discriminate].
  intros [= <-]. apply find_element_from_lookup in E as (_ & e & He & Hf).
  rewrite Nat.sub_0_r in He. eauto.
Qed.

Lemma alter_twice {A} (f g : A -> A) i (l : list A) e :
  l !! i = Some e -> alter g i (alter f i l) = <[i := g (f e)]> l.
Proof.
  intros He. apply list_eq. intros j.
  destruct (decide (i = j)) as [<-|Hne].
  - rewrite !list_lookup_alter_eq, He. simpl.
    rewrite list_lookup_insert_eq; [reflexivity|].
    now apply lookup_lt_Some in He.
  - rewrite !list_lookup_alter_ne by exact Hne.
    now rewrite list_lookup_insert_ne by exact Hne.
Qed.

(** C1: a trigger that returns has read [x] and [y] from the two motors,
    has assigned [x * 1000] to the first parameter and then [y * 1000] to
    the second parameter of the element found by title, has run the
    simulation on the data so changed, and has put the reader's five
    fields, as returned, into the shape, mean, photon_energy,
    horizontal_extent and vertical_extent signals; the image signal holds
    the datum id drawn for this call (the one the new datum is filed
    under), while the data itself is in the result file. *)
Theorem trigger_sets_parameters_and_publishes (s : state) st s' :
  trigger s = (inr st, s') ->
  exists x y x1000 y1000 data element e data_run result ret_ dm,
    fst (motor_value (Some (_motor0 (self s))) (Some (_field0 (self s))) (env s))
    = inr x /\
    fst (motor_value (_motor1 (self s)) (_field1 (self s)) (env s)) = inr y /\
    Py.mul_1000 x = inr x1000 /\ Py.mul_1000 y = inr y1000 /\
    fst (sb_auth (_sirepo_server (self s)) "srw" (_sim_id (self s))
           (server (env s))) = inr data /\
    find_element (beamline data) "title" (Some (optic_name (self s)))
    = inr element /\
    beamline data !! element = Some e /\
    calls (env s') = calls (env s) ++
      [CallAuth (_sirepo_server (self s)) "srw" (_sim_id (self s));
       CallGetDatafile data; CallRunSimulation data_run;
       CallGetDatafile data_run] /\
    beamline data_run =
      <[element := Py.set (Py.set e (Some (param0 (self s))) x1000)
                          (param1 (self s)) y1000]> (beamline data) /\
    (exists e', beamline data_run !! element = Some e' /\
       Py.get e' (param1 (self s)) = Some y1000 /\
       (param1 (self s) <> Some (param0 (self s)) ->
        Py.get e' (Some (param0 (self s))) = Some x1000)) /\
    files (env s') !! srw_file_path (now (env s)) (uuid4 (uids (env s)))
    = Some result /\
    read_srw result = inr ret_ /\
    Py.get ret_ (Some "shape") = Some (shape (sig (self s'))) /\
    Py.get ret_ (Some "mean") = Some (mean (sig (self s'))) /\
    Py.get ret_ (Some "photon_energy") = Some (photon_energy (sig (self s'))) /\
    Py.get ret_ (Some "horizontal_extent")
    = Some (horizontal_extent (sig (self s'))) /\
    Py.get ret_ (Some "vertical_extent")
    = Some (vertical_extent (sig (self s'))) /\
    datums (db_reg (env s')) = datums (db_reg (env s)) ++ [dm] /\
    datum_id dm = uuid4 (uids (env s)) /\
    image (sig (self s')) = Py.PyStr (datum_id dm).
Proof.
  intros Ht. apply trigger_inr in Ht.
  destruct Ht as (x & y & x1000 & y1000 & data & sv1 & raw & sv2 & text &
    element & watch & wid & sv3 & result & sv4 & ret_ & v1 & v2 & v3 & v4 &
    v5 & Ht).
  cbv zeta in Ht.
  destruct Ht as (Hx & Hy & Hx1 & Hy1 & Hauth & _ & _ & Hel & _ & _ & _ & _ &
    _ & Hread & H1 & H2 & H3 & H4 & H5 & _ & _ & ->).
  destruct (find_element_lookup _ _ _ _ Hel) as (e & He & _).
  eexists x, y, x1000, y1000, data, element, e, _, result, ret_, _.
  norm.
  do 4 (split; [assumption|]).
  split; [now rewrite Hauth|].
  do 2 (split; [assumption|]).
  split; [reflexivity|].
  assert (Hb : alter (fun e0 => Py.set e0 (param1 (self s)) y1000) element
            (alter (fun e0 => Py.set e0 (Some (param0 (self s))) x1000) element
               (beamline data))
          = <[element := Py.set (Py.set e (Some (param0 (self s))) x1000)
                                (param1 (self s)) y1000]> (beamline data)).
  { exact (alter_twice
             (fun e0 => Py.set e0 (Some (param0 (self s))) x1000)
             (fun e0 => Py.set e0 (param1 (self s)) y1000) _ _ _ He). }
  split; [exact Hb|].
  split.
  { eexists. unfold set_report, set_element, set_beamline. cbn [beamline].
    rewrite Hb.
    split; [apply list_lookup_insert_eq; now apply lookup_lt_Some in He|].
    split; [apply get_set_eq|].
    intros Hne. rewrite get_set_ne by congruence. apply get_set_eq. }
  split; [apply lookup_insert_eq|].
  do 6 (split; [assumption|]).
  repeat split; reflexivity.
Qed.

(** C2: a trigger that returns adds exactly one resource and exactly one
    datum to the registry, the datum filed under the datum id drawn for
    that call and pointing at the new resource.  When uuids do not repeat,
    a later trigger that returns (whatever happened in between, as long as
    the registry kept its entries) adds one more of each, with a datum id
    and a resource different from those of the earlier one. *)
Theorem successive_triggers_distinct_entries
  (s s1 s1' s2 : state) st1 st2 :
  (forall m n, uuid4 m = uuid4 n -> m = n) ->
  trigger s = (inr st1, s1) ->
  db_reg (env s1') = db_reg (env s1) ->
  (uids (env s1) <= uids (env s1'))%nat ->
  trigger s1' = (inr st2, s2) ->
  exists r1 d1 r2 d2,
    db_reg (env s1) =
      {| resources := resources (db_reg (env s)) ++ [r1];
         datums := datums (db_reg (env s)) ++ [d1] |} /\
    db_reg (env s2) =
      {| resources := resources (db_reg (env s)) ++ [r1; r2];
         datums := datums (db_reg (env s)) ++ [d1; d2] |} /\
    datum_id d1 = uuid4 (uids (env s)) /\
    datum_id d2 = uuid4 (uids (env s1')) /\
    image (sig (self s1)) = Py.PyStr (datum_id d1) /\
    image (sig (self s2)) = Py.PyStr (datum_id d2) /\
    datum_resource d1 = Some (res_uid r1) /\
    datum_resource d2 = Some (res_uid r2) /\
    datum_id d1 <> datum_id d2 /\
    res_uid r1 <> res_uid r2.
Proof.
  intros Hinj Ht1 Hreg Hle Ht2.
  apply trigger_inr in Ht1.
  destruct Ht1 as (? & ? & ? & ? & ? & ? & ? & ? & ? & ? & ? & ? & ? & ? & ? &
    ? & ? & ? & ? & ? & ? & Ht1).
  cbv zeta in Ht1. do 21 (destruct Ht1 as [_ Ht1]). subst s1.
  apply trigger_inr in Ht2.
  destruct Ht2 as (? & ? & ? & ? & ? & ? & ? & ? & ? & ? & ? & ? & ? & ? & ? &
    ? & ? & ? & ? & ? & ? & Ht2).
  cbv zeta in Ht2. do 21 (destruct Ht2 as [_ Ht2]). subst s2.
  norm_in Hreg. norm_in Hle. norm. rewrite Hreg. norm.
  do 4 eexists.
  split; [reflexivity|].
  split; [rewrite <- !app_assoc; reflexivity|].
  norm. repeat split; try reflexivity.
  - intros Heq. apply Hinj in Heq. lia.
  - intros Heq. apply Hinj in Heq. lia.
Qed.

(** C4 (amended): a trigger that returns has registered a new resource of
    kind ["srw"] pointing at the computed file path, whether or not a
    resource id was already held, and a new datum linking the datum id
    drawn for this call to that resource; the resource id is kept. *)
Theorem trigger_always_registers_resource (s : state) st s' :
  trigger s = (inr st, s') ->
  exists rid,
    resources (db_reg (env s')) =
      resources (db_reg (env s)) ++
      [{| res_uid := rid; res_spec := "srw";
          res_path := srw_file_path (now (env s)) (uuid4 (uids (env s)));
          res_kwargs := [] |}] /\
    datums (db_reg (env s')) =
      datums (db_reg (env s)) ++
      [{| datum_resource := Some rid; datum_id := uuid4 (uids (env s));
          datum_kwargs := [] |}] /\
    _resource_id (self s') = Some rid.
Proof.
  intros Ht. apply trigger_inr in Ht.
  destruct Ht as (? & ? & ? & ? & ? & ? & ? & ? & ? & ? & ? & ? & ? & ? & ? &
    ? & ? & ? & ? & ? & ? & Ht).
  cbv zeta in Ht. do 21 (destruct Ht as [_ Ht]). subst s'.
  eexists. norm. repeat split; reflexivity.
Qed.

(** Run one more step of a computation forwards. *)
Ltac run_with tac :=
  erewrite bind_ok by tac; cbv beta.

Ltac run := run_with ltac:(reflexivity).

Ltac run_motor Hm :=
  run_with ltac:(rewrite in_env_motor_value; store_cbn; rewrite Hm; reflexivity).

Ltac run_remote Hr :=
  run_with ltac:(unfold in_env, remote; store_cbn; rewrite Hr; reflexivity).

Ltac run_lift Hl :=
  run_with ltac:(unfold lift; store_cbn; rewrite Hl; reflexivity).

Ltac run_fail_with tac :=
  erewrite bind_fail by tac.

Ltac norm_all :=
  unfold on_self, on_env, with_server, with_uids, with_files, with_db_reg,
    with_ophyd, with_sig, with_resource_id, with_result, with_hints,
    put_image, put_shape, put_mean, put_photon_energy,
    put_horizontal_extent, put_vertical_extent in *;
  cbn [self env server calls uids now dirs files db_reg motors resources
       datums ophyd name sig reg optic_name param0 param1 _motor0 _motor1
       _field0 _field1 _resource_id _result _sim_id watch_name
       _sirepo_server _hints image shape mean photon_energy
       horizontal_extent vertical_extent res_uid res_spec res_path
       res_kwargs datum_resource datum_id datum_kwargs fst snd] in *.

Lemma element_get_run {S} i k (d : sim_data) e v (s : S) :
  beamline d !! i = Some e -> Py.get e k = Some v ->
  element_get i k d s = (inr v, s).
Proof.
  intros He Hv. unfold element_get, subscript. now rewrite He, Hv.
Qed.

(** The steps of [trigger] up to and including the authentication. *)
Ltac run_to_auth Hx Hy :=
  unfold trigger; run; norm; run; run; run_motor Hx; run; run;
  run_motor Hy; run; norm; run; run; run.

(** From the authentication to the lookup of the optical element. *)
Ltac run_to_element Hauth Hraw Htext :=
  run_remote Hauth; norm; run_remote Hraw; norm; run_lift Htext; run.

(** From the lookup of the optical element to that of the watch-point. *)
Ltac run_to_watch Hel Hx1000 Hy1000 :=
  run_lift Hel; run_lift Hx1000; run; run_lift Hy1000; run; run.

(** C3: when a step of [trigger] that belongs to the remote service
    raises (the authentication, the lookup of the optical element or of
    the watch-point, the simulation run), [trigger] raises that very
    exception, and it leaves the six signals, the resource id, the pending
    results, the configuration, the registry and the files as they were. *)
Theorem remote_failure_leaves_adapter_unchanged (s : state) (e : Py.exn) :
  remote_failure s e ->
  exists s',
    trigger s = (inl e, s') /\
    self s' = with_ophyd (Device_trigger (ophyd (self s))) (self s) /\
    sig (self s') = sig (self s) /\
    _resource_id (self s') = _resource_id (self s) /\
    _result (self s') = _result (self s) /\
    db_reg (env s') = db_reg (env s) /\
    files (env s') = files (env s) /\
    dirs (env s') = dirs (env s).
Proof.
  intros Hf. destruct s as [d w]. destruct d, w.
  destruct Hf; norm_all; eexists.
  - split.
    { run_to_auth Hx Hy.
      run_fail_with ltac:(unfold in_env, remote; store_cbn; rewrite Hauth;
                          reflexivity).
      reflexivity. }
    norm. repeat split; reflexivity.
  - split.
    { run_to_auth Hx Hy. run_to_element Hauth Hraw Htext.
      run_fail_with ltac:(unfold lift; store_cbn; rewrite Hel; reflexivity).
      reflexivity. }
    norm. repeat split; reflexivity.
  - split.
    { run_to_auth Hx Hy. run_to_element Hauth Hraw Htext.
      run_to_watch Hel Hx1000 Hy1000.
      run_fail_with ltac:(unfold lift; store_cbn; rewrite Hwatch; reflexivity).
      reflexivity. }
    norm. repeat split; reflexivity.
  - split.
    { run_to_auth Hx Hy. run_to_element Hauth Hraw Htext.
      run_to_watch Hel Hx1000 Hy1000.
      run_lift Hwatch.
      run_with ltac:(store_cbn; eapply element_get_run; eassumption).
      run_fail_with ltac:(unfold in_env, remote; store_cbn; rewrite Hrun;
                          reflexivity).
      reflexivity. }
    norm. repeat split; reflexivity.
Qed.

Ltac run_motor_fail Hm :=
  run_fail_with ltac:(rewrite in_env_motor_value; store_cbn; rewrite Hm;
                      reflexivity).

(** C5 (as the code behaves): with no second motor, [trigger] never
    returns; once the first motor has been read it raises
    [AttributeError] on the missing one, before any request is sent. *)
Theorem single_motor_trigger_fails (s : state) :
  _motor1 (self s) = None ->
  (forall st s', trigger s <> (inr st, s')) /\
  (forall x,
     fst (motor_value (Some (_motor0 (self s))) (Some (_field0 (self s)))
            (env s)) = inr x ->
     exists s',
       trigger s =
       (inl (Py.AttributeError "'NoneType' object has no attribute 'read'"), s')
       /\ calls (env s') = calls (env s)).
Proof.
  intros Hm1. split.
  - intros st s' Ht. apply trigger_inr in Ht.
    destruct Ht as (x & y & ? & ? & ? & ? & ? & ? & ? & ? & ? & ? & ? & ? & ? &
      ? & ? & ? & ? & ? & ? & Ht).
    cbv zeta in Ht. destruct Ht as (_ & Hy & _).
    rewrite Hm1 in Hy. discriminate.
  - intros x Hx. destruct s as [d w]. destruct d, w. norm_all. subst.
    eexists. split.
    { unfold trigger. run. norm. run. run. run_motor Hx. run. run.
      erewrite bind_fail by reflexivity. reflexivity. }
    reflexivity.
Qed.

Lemma motor_value_motors motor field (w1 w2 : world) :
  motors w1 = motors w2 ->
  fst (motor_value motor field w1) = fst (motor_value motor field w2).
Proof.
  intros Hm. destruct motor as [m|]; simpl; [|reflexivity].
  unfold bind, gets, subscript. rewrite Hm.
  destruct (Py.get (motors w2 m) field) as [entry|]; simpl; [|reflexivity].
  destruct (Py.get entry (Some "value")); reflexivity.
Qed.

(** C10: the units substring is dead.  Take two runs that start alike but
    for the remote service, that both get as far as the first download,
    whose authentications return the same data and whose first downloads,
    different as they may be, decode to texts that differ only in the
    units substring and leave the service in the same condition: the two
    triggers end alike, with the same outcome, the same signals, files,
    registry and log of requests. *)
Theorem units_are_not_used (s : state) (other : srv) (x y : Py.pyval)
  (data : sim_data) (sv1 sv1' sv2 : srv) (raw raw' : bytes) (text text' : string) :
  fst (motor_value (Some (_motor0 (self s))) (Some (_field0 (self s))) (env s))
  = inr x ->
  fst (motor_value (_motor1 (self s)) (_field1 (self s)) (env s)) = inr y ->
  sb_auth (_sirepo_server (self s)) "srw" (_sim_id (self s)) (server (env s))
  = (inr data, sv1) ->
  sb_auth (_sirepo_server (self s)) "srw" (_sim_id (self s)) other
  = (inr data, sv1') ->
  sb_get_datafile (_sirepo_server (self s)) data sv1 = (inr raw, sv2) ->
  sb_get_datafile (_sirepo_server (self s)) data sv1' = (inr raw', sv2) ->
  decode_utf8 raw = Some text ->
  decode_utf8 raw' = Some text' ->
  differ_only_in_units text text' ->
  trigger s = trigger (on_env (with_server other (calls (env s))) s).
Proof.
  intros Hx Hy Hauth Hauth' Hraw Hraw' Htext Htext' _.
  destruct s as [d w]. destruct d, w. norm_all.
  set (w' := {| server := other; calls := calls0; uids := uids0;
                now := now0; dirs := dirs0; files := files0;
                db_reg := db_reg0; motors := motors0 |}).
  assert (Hx' : fst (motor_value (Some _motor2) (Some _field2) w') = inr x).
  { rewrite <- Hx. apply motor_value_motors. reflexivity. }
  assert (Hy' : fst (motor_value _motor3 _field3 w') = inr y).
  { rewrite <- Hy. apply motor_value_motors. reflexivity. }
  subst w'.
  etransitivity.
  - run_to_auth Hx Hy. run_to_element Hauth Hraw Htext. reflexivity.
  - symmetry.
    run_to_auth Hx' Hy'. run_to_element Hauth' Hraw' Htext'. reflexivity.
Qed.

(** ** More on trigger: the stages one by one *)

Ltac stages :=
  unfold motors_read, session_opened, model_prepared, run_data, assigned,
    datum_path, requests_to_run in *.

(** From the lookup of the watch-point to the run. *)
Ltac run_to_simulation Hwatch Hwe Hid :=
  run_lift Hwatch;
  run_with ltac:(store_cbn; eapply element_get_run; eassumption).

Ltac run_open Hdir :=
  run_with ltac:(unfold in_env, open_wb; store_cbn;
                 rewrite decide_True by exact Hdir; reflexivity).

Ltac run_write := run; norm; rewrite write_after_open.

Ltac run_read Hread :=
  run_with ltac:(unfold in_env, read_srw_file; store_cbn;
                 rewrite lookup_insert_eq, Hread; reflexivity).

Ltac run_subscript Hk :=
  run_with ltac:(unfold subscript; rewrite Hk; reflexivity).

(** The five fields, each looked up and put. *)
Ltac run_publish H1 H2 H3 H4 H5 :=
  run; norm;
  run_subscript H1; run; norm; run_subscript H2; run; norm;
  run_subscript H3; run; norm; run_subscript H4; run; norm;
  run_subscript H5; run; norm.

(** X1: When every collaborator does its part, [trigger] returns: the motors
    read, the session opens, the element and the watch-point are found,
    the simulation runs, the directory of the day exists, the result is
    downloaded and read with its five fields, and a registry is attached.
    The result file then holds the download. *)
Theorem trigger_returns (s : state) (x y : Py.pyval) (data : sim_data)
  (sv1 sv2 sv3 sv4 : srv) (raw result : bytes) (text : string)
  (element watch : nat) (x1000 y1000 watch_id : Py.pyval)
  (ret_ : Py.dict Py.pyval) (v1 v2 v3 v4 v5 : Py.pyval) :
  motors_read s x y ->
  session_opened s data sv1 raw sv2 text ->
  model_prepared s x y data element x1000 y1000 watch watch_id ->
  sb_run_simulation (_sirepo_server (self s))
    (run_data s data element x1000 y1000 watch_id) sv2 = (inr tt, sv3) ->
  dirname (datum_path s) ∈ dirs (env s) ->
  sb_get_datafile (_sirepo_server (self s))
    (run_data s data element x1000 y1000 watch_id) sv3 = (inr result, sv4) ->
  read_srw result = inr ret_ ->
  Py.get ret_ (Some "shape") = Some v1 ->
  Py.get ret_ (Some "mean") = Some v2 ->
  Py.get ret_ (Some "photon_energy") = Some v3 ->
  Py.get ret_ (Some "horizontal_extent") = Some v4 ->
  Py.get ret_ (Some "vertical_extent") = Some v5 ->
  reg (self s) = Some DbReg ->
  exists s',
    trigger s = (inr NullStatus, s') /\
    files (env s') !! datum_path s = Some result /\
    server (env s') = sv4 /\
    sig (self s') =
      {| image := Py.PyStr (uuid4 (uids (env s))); shape := v1; mean := v2;
         photon_energy := v3; horizontal_extent := v4;
         vertical_extent := v5 |}.
Proof.
  intros [Hx Hy] (Hauth & Hraw & Htext)
    (Hel & Hx1000 & Hy1000 & Hwatch & we & Hwe & Hid)
    Hrun Hdir Hres Hread H1 H2 H3 H4 H5 Hreg.
  destruct s as [d w]. destruct d, w. stages. norm_all. subst.
  eexists. split.
  { run_to_auth Hx Hy. run_to_element Hauth Hraw Htext.
    run_to_watch Hel Hx1000 Hy1000. run_to_simulation Hwatch Hwe Hid.
    run_remote Hrun. norm. run_open Hdir. norm. run_remote Hres. norm.
    run_write. run_read Hread. norm.
    run_publish H1 H2 H3 H4 H5.
    run_with ltac:(unfold reg_insert_resource, in_env, insert_resource,
                     new_uid, bind, attr, gets, modify, ret;
                   store_cbn; reflexivity).
    norm. run. norm. run.
    run_with ltac:(unfold reg_insert_datum, in_env, insert_datum, bind,
                     attr, gets, modify; store_cbn; reflexivity).
    norm. reflexivity. }
  norm. split; [apply lookup_insert_eq|]. split; reflexivity.
Qed.

Ltac run_fail_remote Hr :=
  run_fail_with ltac:(unfold in_env, remote; store_cbn; rewrite Hr;
                      reflexivity).

(** X4: A motor that cannot be read stops the trigger before anything else:
    the exception of the read is raised, no uid is drawn, no request is
    sent, nothing in the world or in the signals changes. *)
Theorem motor_failure_sends_nothing (s : state) (e : Py.exn) :
  fst (motor_value (Some (_motor0 (self s))) (Some (_field0 (self s)))
         (env s)) = inl e \/
  ((exists x,
      fst (motor_value (Some (_motor0 (self s))) (Some (_field0 (self s)))
             (env s)) = inr x) /\
   fst (motor_value (_motor1 (self s)) (_field1 (self s)) (env s)) = inl e) ->
  exists s',
    trigger s = (inl e, s') /\ env s' = env s /\
    sig (self s') = sig (self s) /\
    _resource_id (self s') = _resource_id (self s).
Proof.
  intros Hm. destruct s as [d w]. destruct d, w. norm_all.
  destruct Hm as [Hx | [[x Hx] Hy]]; eexists.
  - split.
    { unfold trigger. run. norm. run. run. run_motor_fail Hx. reflexivity. }
    norm. repeat split; reflexivity.
  - split.
    { unfold trigger. run. norm. run. run. run_motor Hx. run. run.
      run_motor_fail Hy. reflexivity. }
    norm. repeat split; reflexivity.
Qed.

(** X5: The units are never used, yet the text they are cut from must decode:
    a first download that is not UTF-8 makes the trigger raise
    [UnicodeDecodeError] after two requests, before the element is looked
    up and without running the simulation. *)
Theorem undecodable_download_aborts (s : state) (x y : Py.pyval)
  (data : sim_data) (sv1 sv2 : srv) (raw : bytes) :
  motors_read s x y ->
  sb_auth (_sirepo_server (self s)) "srw" (_sim_id (self s)) (server (env s))
  = (inr data, sv1) ->
  sb_get_datafile (_sirepo_server (self s)) data sv1 = (inr raw, sv2) ->
  decode_utf8 raw = None ->
  exists s',
    trigger s = (inl Py.UnicodeDecodeError, s') /\
    calls (env s') = calls (env s) ++
      [CallAuth (_sirepo_server (self s)) "srw" (_sim_id (self s));
       CallGetDatafile data] /\
    sig (self s') = sig (self s) /\
    db_reg (env s') = db_reg (env s) /\
    files (env s') = files (env s).
Proof.
  intros [Hx Hy] Hauth Hraw Hdec.
  destruct s as [d w]. destruct d, w. stages. norm_all.
  eexists. split.
  { run_to_auth Hx Hy. run_remote Hauth. norm. run_remote Hraw. norm.
    run_fail_with ltac:(unfold lift; rewrite Hdec; reflexivity).
    reflexivity. }
  norm. rewrite <- app_assoc. repeat split; reflexivity.
Qed.

(** X6: A reading that cannot be multiplied by 1000 (a motor holding [None],
    say) is found out only after the session has been opened: the
    exception of the multiplication is raised after two requests, and the
    simulation is not run. *)
Theorem unscalable_reading_aborts (s : state) (x y : Py.pyval)
  (data : sim_data) (sv1 sv2 : srv) (raw : bytes) (text : string)
  (element : nat) (e : Py.exn) :
  motors_read s x y ->
  session_opened s data sv1 raw sv2 text ->
  find_element (beamline data) "title" (Some (optic_name (self s)))
  = inr element ->
  Py.mul_1000 x = inl e \/
  ((exists x1000, Py.mul_1000 x = inr x1000) /\ Py.mul_1000 y = inl e) ->
  exists s',
    trigger s = (inl e, s') /\
    calls (env s') = calls (env s) ++
      [CallAuth (_sirepo_server (self s)) "srw" (_sim_id (self s));
       CallGetDatafile data] /\
    sig (self s') = sig (self s) /\
    db_reg (env s') = db_reg (env s) /\
    files (env s') = files (env s).
Proof.
  intros [Hx Hy] (Hauth & Hraw & Htext) Hel Hmul.
  destruct s as [d w]. destruct d, w. stages. norm_all.
  destruct Hmul as [Hx1000 | [[x1000 Hx1000] Hy1000]]; eexists.
  - split.
    { run_to_auth Hx Hy. run_to_element Hauth Hraw Htext. run_lift Hel.
      run_fail_with ltac:(unfold lift; rewrite Hx1000; reflexivity).
      reflexivity. }
    norm. rewrite <- app_assoc. repeat split; reflexivity.
  - split.
    { run_to_auth Hx Hy. run_to_element Hauth Hraw Htext. run_lift Hel.
      run_lift Hx1000. run.
      run_fail_with ltac:(unfold lift; rewrite Hy1000; reflexivity).
      reflexivity. }
    norm. rewrite <- app_assoc. repeat split; reflexivity.
Qed.

(** X7: No directory is ever created: when the directory of the day is
    missing, the trigger raises [FileNotFoundError] for the result file,
    after the simulation has been run; no file appears and neither the
    signals nor the registry change. *)
Theorem missing_directory_after_run (s : state) (x y : Py.pyval)
  (data : sim_data) (sv1 sv2 sv3 : srv) (raw : bytes) (text : string)
  (element watch : nat) (x1000 y1000 watch_id : Py.pyval) :
  motors_read s x y ->
  session_opened s data sv1 raw sv2 text ->
  model_prepared s x y data element x1000 y1000 watch watch_id ->
  sb_run_simulation (_sirepo_server (self s))
    (run_data s data element x1000 y1000 watch_id) sv2 = (inr tt, sv3) ->
  dirname (datum_path s) ∉ dirs (env s) ->
  exists s',
    trigger s = (inl (Py.FileNotFoundError (datum_path s)), s') /\
    calls (env s') = calls (env s) ++
      requests_to_run s data (run_data s data element x1000 y1000 watch_id) /\
    files (env s') = files (env s) /\
    sig (self s') = sig (self s) /\
    db_reg (env s') = db_reg (env s).
Proof.
  intros [Hx Hy] (Hauth & Hraw & Htext)
    (Hel & Hx1000 & Hy1000 & Hwatch & we & Hwe & Hid) Hrun Hdir.
  destruct s as [d w]. destruct d, w. stages. norm_all.
  eexists. split.
  { run_to_auth Hx Hy. run_to_element Hauth Hraw Htext.
    run_to_watch Hel Hx1000 Hy1000. run_to_simulation Hwatch Hwe Hid.
    run_remote Hrun. norm.
    run_fail_with ltac:(unfold in_env, open_wb; store_cbn;
                        rewrite decide_False by exact Hdir; reflexivity).
    reflexivity. }
  norm. rewrite <- !app_assoc. repeat split; reflexivity.
Qed.

(** X8: The file is opened before the result is asked for: when the second
    download fails, its exception is raised and an empty file is left
    behind at the result path; the signals and the registry are as
    before. *)
Theorem failed_download_leaves_empty_file (s : state) (x y : Py.pyval)
  (data : sim_data) (sv1 sv2 sv3 sv4 : srv) (raw : bytes) (text : string)
  (element watch : nat) (x1000 y1000 watch_id : Py.pyval) (e : Py.exn) :
  motors_read s x y ->
  session_opened s data sv1 raw sv2 text ->
  model_prepared s x y data element x1000 y1000 watch watch_id ->
  sb_run_simulation (_sirepo_server (self s))
    (run_data s data element x1000 y1000 watch_id) sv2 = (inr tt, sv3) ->
  dirname (datum_path s) ∈ dirs (env s) ->
  sb_get_datafile (_sirepo_server (self s))
    (run_data s data element x1000 y1000 watch_id) sv3 = (inl e, sv4) ->
  exists s',
    trigger s = (inl e, s') /\
    files (env s') = <[datum_path s := []]> (files (env s)) /\
    sig (self s') = sig (self s) /\
    db_reg (env s') = db_reg (env s).
Proof.
  intros [Hx Hy] (Hauth & Hraw & Htext)
    (Hel & Hx1000 & Hy1000 & Hwatch & we & Hwe & Hid) Hrun Hdir Hres.
  destruct s as [d w]. destruct d, w. stages. norm_all.
  eexists. split.
  { run_to_auth Hx Hy. run_to_element Hauth Hraw Htext.
    run_to_watch Hel Hx1000 Hy1000. run_to_simulation Hwatch Hwe Hid.
    run_remote Hrun. norm. run_open Hdir. norm.
    run_fail_remote Hres. reflexivity. }
  norm. repeat split; reflexivity.
Qed.

(** X9: A result the reader rejects stays on disk: the reader's exception is
    raised with the download written to the result path, and neither the
    signals nor the registry change. *)
Theorem rejected_result_stays_on_disk (s : state) (x y : Py.pyval)
  (data : sim_data) (sv1 sv2 sv3 sv4 : srv) (raw result : bytes)
  (text : string) (element watch : nat) (x1000 y1000 watch_id : Py.pyval)
  (e : Py.exn) :
  motors_read s x y ->
  session_opened s data sv1 raw sv2 text ->
  model_prepared s x y data element x1000 y1000 watch watch_id ->
  sb_run_simulation (_sirepo_server (self s))
    (run_data s data element x1000 y1000 watch_id) sv2 = (inr tt, sv3) ->
  dirname (datum_path s) ∈ dirs (env s) ->
  sb_get_datafile (_sirepo_server (self s))
    (run_data s data element x1000 y1000 watch_id) sv3 = (inr result, sv4) ->
  read_srw result = inl e ->
  exists s',
    trigger s = (inl e, s') /\
    files (env s') = <[datum_path s := result]> (files (env s)) /\
    sig (self s') = sig (self s) /\
    db_reg (env s') = db_reg (env s).
Proof.
  intros [Hx Hy] (Hauth & Hraw & Htext)
    (Hel & Hx1000 & Hy1000 & Hwatch & we & Hwe & Hid) Hrun Hdir Hres Hread.
  destruct s as [d w]. destruct d, w. stages. norm_all.
  eexists. split.
  { run_to_auth Hx Hy. run_to_element Hauth Hraw Htext.
    run_to_watch Hel Hx1000 Hy1000. run_to_simulation Hwatch Hwe Hid.
    run_remote Hrun. norm. run_open Hdir. norm. run_remote Hres. norm.
    run_write.
    run_fail_with ltac:(unfold in_env, read_srw_file; store_cbn;
                        rewrite lookup_insert_eq, Hread; reflexivity).
    reflexivity. }
  norm. repeat split; reflexivity.
Qed.

(** X10: The image signal is written before the reader's result is looked at:
    when the result has no ['shape'], the trigger raises [KeyError] with
    the image signal already holding the new datum id, the other five
    signals untouched, and no datum registered under that id. *)
Theorem missing_shape_publishes_image_only (s : state) (x y : Py.pyval)
  (data : sim_data) (sv1 sv2 sv3 sv4 : srv) (raw result : bytes)
  (text : string) (element watch : nat) (x1000 y1000 watch_id : Py.pyval)
  (ret_ : Py.dict Py.pyval) :
  motors_read s x y ->
  session_opened s data sv1 raw sv2 text ->
  model_prepared s x y data element x1000 y1000 watch watch_id ->
  sb_run_simulation (_sirepo_server (self s))
    (run_data s data element x1000 y1000 watch_id) sv2 = (inr tt, sv3) ->
  dirname (datum_path s) ∈ dirs (env s) ->
  sb_get_datafile (_sirepo_server (self s))
    (run_data s data element x1000 y1000 watch_id) sv3 = (inr result, sv4) ->
  read_srw result = inr ret_ ->
  Py.get ret_ (Some "shape") = None ->
  exists s',
    trigger s = (inl (Py.KeyError "shape"), s') /\
    sig (self s') = put_image (Py.PyStr (uuid4 (uids (env s)))) (sig (self s)) /\
    db_reg (env s') = db_reg (env s) /\
    _resource_id (self s') = _resource_id (self s).
Proof.
  intros [Hx Hy] (Hauth & Hraw & Htext)
    (Hel & Hx1000 & Hy1000 & Hwatch & we & Hwe & Hid) Hrun Hdir Hres Hread
    Hshape.
  destruct s as [d w]. destruct d, w. stages. norm_all.
  eexists. split.
  { run_to_auth Hx Hy. run_to_element Hauth Hraw Htext.
    run_to_watch Hel Hx1000 Hy1000. run_to_simulation Hwatch Hwe Hid.
    run_remote Hrun. norm. run_open Hdir. norm. run_remote Hres. norm.
    run_write. run_read Hread. norm. run. norm.
    run_fail_with ltac:(unfold subscript; rewrite Hshape; reflexivity).
    reflexivity. }
  norm. repeat split; reflexivity.
Qed.

(** X11: A detector with no registry (the constructor's default) fails at the
    very end: the simulation has run, the file is written and all six
    signals are updated when [AttributeError] is raised; nothing is
    registered and the resource id is not set. *)
Theorem no_registry_fails_after_publishing (s : state) (x y : Py.pyval)
  (data : sim_data) (sv1 sv2 sv3 sv4 : srv) (raw result : bytes)
  (text : string) (element watch : nat) (x1000 y1000 watch_id : Py.pyval)
  (ret_ : Py.dict Py.pyval) (v1 v2 v3 v4 v5 : Py.pyval) :
  motors_read s x y ->
  session_opened s data sv1 raw sv2 text ->
  model_prepared s x y data element x1000 y1000 watch watch_id ->
  sb_run_simulation (_sirepo_server (self s))
    (run_data s data element x1000 y1000 watch_id) sv2 = (inr tt, sv3) ->
  dirname (datum_path s) ∈ dirs (env s) ->
  sb_get_datafile (_sirepo_server (self s))
    (run_data s data element x1000 y1000 watch_id) sv3 = (inr result, sv4) ->
  read_srw result = inr ret_ ->
  Py.get ret_ (Some "shape") = Some v1 ->
  Py.get ret_ (Some "mean") = Some v2 ->
  Py.get ret_ (Some "photon_energy") = Some v3 ->
  Py.get ret_ (Some "horizontal_extent") = Some v4 ->
  Py.get ret_ (Some "vertical_extent") = Some v5 ->
  reg (self s) = None ->
  exists s',
    trigger s =
    (inl (Py.AttributeError
            "'NoneType' object has no attribute 'insert_resource'"), s') /\
    sig (self s') =
      {| image := Py.PyStr (uuid4 (uids (env s))); shape := v1; mean := v2;
         photon_energy := v3; horizontal_extent := v4;
         vertical_extent := v5 |} /\
    files (env s') = <[datum_path s := result]> (files (env s)) /\
    db_reg (env s') = db_reg (env s) /\
    _resource_id (self s') = _resource_id (self s).
Proof.
  intros [Hx Hy] (Hauth & Hraw & Htext)
    (Hel & Hx1000 & Hy1000 & Hwatch & we & Hwe & Hid)
    Hrun Hdir Hres Hread H1 H2 H3 H4 H5 Hreg.
  destruct s as [d w]. destruct d, w. stages. norm_all. subst.
  eexists. split.
  { run_to_auth Hx Hy. run_to_element Hauth Hraw Htext.
    run_to_watch Hel Hx1000 Hy1000. run_to_simulation Hwatch Hwe Hid.
    run_remote Hrun. norm. run_open Hdir. norm. run_remote Hres. norm.
    run_write. run_read Hread. norm.
    run_publish H1 H2 H3 H4 H5.
    run_fail_with ltac:(unfold reg_insert_resource, bind, attr, gets, raise;
                        store_cbn; reflexivity).
    reflexivity. }
  norm. repeat split; reflexivity.
Qed.

(** ** What a trigger leaves alone *)


(** X3: The report of the run is that of the watch-point: a trigger that
    returns has asked for the first download with the data as
    authenticated, and has run the simulation, and asked for the result,
    with the report set to ["watchpointReport"] followed by the id of the
    first element titled as the watch-point, looked up after the two
    parameters were assigned. *)
Theorem trigger_selects_watchpoint_report (s : state) st s' :
  trigger s = (inr st, s') ->
  exists data element x1000 y1000 watch e watch_id,
    fst (sb_auth (_sirepo_server (self s)) "srw" (_sim_id (self s))
           (server (env s))) = inr data /\
    calls (env s') = calls (env s) ++
      [CallAuth (_sirepo_server (self s)) "srw" (_sim_id (self s));
       CallGetDatafile data;
       CallRunSimulation (run_data s data element x1000 y1000 watch_id);
       CallGetDatafile (run_data s data element x1000 y1000 watch_id)] /\
    report (run_data s data element x1000 y1000 watch_id)
    = Some ("watchpointReport" +:+ py_str watch_id) /\
    find_element (beamline (assigned s data element x1000 y1000)) "title"
      (watch_name (self s)) = inr watch /\
    beamline (run_data s data element x1000 y1000 watch_id) !! watch = Some e /\
    field_is e "title" (watch_name (self s)) = true /\
    Py.get e (Some "id") = Some watch_id.
Proof.
  intros Ht. apply trigger_inr in Ht.
  destruct Ht as (x & y & x1000 & y1000 & data & sv1 & raw & sv2 & text &
    element & watch & wid & sv3 & result & sv4 & ret_ & v1 & v2 & v3 & v4 &
    v5 & Ht).
  cbv zeta in Ht.
  destruct Ht as (_ & _ & _ & _ & Hauth & _ & _ & _ & Hwatch & (e & He & Hid) &
    Ht).
  do 11 (destruct Ht as [_ Ht]). subst s'.
  destruct (find_element_lookup _ _ _ _ Hwatch) as (e' & He' & Hf).
  assert (e' = e) as -> by congruence.
  exists data, element, x1000, y1000, watch, e, wid.
  unfold run_data, assigned. norm. rewrite Hauth.
  repeat split; assumption || reflexivity.
Qed.

(** X12: [unstage] does not take back a trigger: after a trigger that returned
    and an [unstage], the image signal still holds the datum id of the
    last datum of the registry, that datum still points at the resource
    the trigger registered, the result file is still there; only the
    resource id is gone. *)
Theorem unstage_keeps_what_trigger_published (s : state) st s1 :
  trigger s = (inr st, s1) ->
  exists s2 dm result,
    unstage s1 = (inr tt, s2) /\
    _resource_id (self s2) = None /\
    last (datums (db_reg (env s2))) = Some dm /\
    image (sig (self s2)) = Py.PyStr (datum_id dm) /\
    datum_resource dm = _resource_id (self s1) /\
    files (env s2) !! datum_path s = Some result.
Proof.
  intros Ht. apply trigger_inr in Ht.
  destruct Ht as (? & ? & ? & ? & ? & ? & ? & ? & ? & ? & ? & ? & ? & result &
    ? & ? & ? & ? & ? & ? & ? & Ht).
  cbv zeta in Ht. do 21 (destruct Ht as [_ Ht]). subst s1.
  destruct s as [d w]. destruct d, w. unfold datum_path. norm.
  eexists _, _, result. split.
  { unfold unstage. run. norm. run. norm. reflexivity. }
  norm.
  split; [reflexivity|]. split; [apply last_snoc|]. norm.
  split; [reflexivity|]. split; [reflexivity|]. apply lookup_insert_eq.
Qed.

(** ** More on describe and hints *)

(** X13: [describe] needs the image entry: when the base description lacks
    it, [describe] raises [KeyError] with the name of the image signal;
    when the base description itself raises, so does [describe]; the
    state is untouched either way. *)
Theorem describe_without_image_entry (s : state) :
  (forall res0,
     Device_describe (ophyd (self s)) (name (self s)) (sig (self s)) = inr res0 ->
     Py.get res0 (Some (component_name (self s) "image")) = None ->
     describe s = (inl (Py.KeyError (component_name (self s) "image")), s)) /\
  (forall e,
     Device_describe (ophyd (self s)) (name (self s)) (sig (self s)) = inl e ->
     describe s = (inl e, s)).
Proof.
  split.
  - intros res0 Hd Hnone. unfold describe, bind, gets, lift, subscript.
    rewrite Hd, Hnone. reflexivity.
  - intros e Hd. unfold describe, bind, gets, lift. rewrite Hd. reflexivity.
Qed.

(** X14: Hints: what is set is what is read back, whatever was there before
    and touching nothing else; as long as nothing was set, the hints name
    the mean signal. *)
Theorem hints_roundtrip (s : state) (val : Py.dict (list string)) :
  (exists s',
     set_hints val s = (inr tt, s') /\ hints s' = (inr val, s') /\
     self s' = with_hints (Some val) (self s) /\ env s' = env s) /\
  (_hints (self s) = None ->
   hints s = (inr [(Some "fields", [name (self s) +:+ "_mean"])], s)).
Proof.
  split.
  - eexists. split; [reflexivity|]. repeat split; reflexivity.
  - intros Hn. unfold hints, bind, attr, gets. rewrite Hn. reflexivity.
Qed.

(** ** More on the discovery script *)

Lemma prompts_printed (lines : list string) :
  prompts (map Printed lines) = [].
Proof. induction lines; simpl; auto. Qed.

Lemma get_dict_parameters_loop_prints ks : forall ps c,
  get_dict_parameters_loop ks ps c =
  (inr tt,
   {| stdin := stdin c;
      tty := tty c ++
        map Printed
          (map parameter_line
             (growing ps (filter (fun k => k ∉ non_parameters) ks)));
      outside := outside c |}).
Proof.
  induction ks as [|k ks IH]; intros ps c; simpl.
  - rewrite app_nil_r. now destruct c.
  - rewrite filter_cons. destruct (decide (k ∈ non_parameters)) as [Hin|Hout].
    + rewrite decide_False by tauto. apply IH.
    + rewrite decide_True by exact Hout.
      unfold bind, print, modify. rewrite IH. simpl.
      rewrite <- app_assoc. reflexivity.
Qed.

(** X15: [get_dict_parameters] never raises and never asks; it prints one line
    per key of the element other than title, shape, type and id, in the
    order of the keys, and each line lists all the parameters met so far:
    the n-th line has n names. *)
Theorem get_dict_parameters_prints_growing_lists
  (d : Py.dict Py.pyval) (c : console) :
  exists c',
    get_dict_parameters d c = (inr tt, c') /\
    tty c' = tty c ++
      map Printed
        (map parameter_line
           (growing [] (filter (fun k => k ∉ non_parameters) (Py.keys d)))) /\
    stdin c' = stdin c /\ outside c' = outside c /\
    prompts (tty c') = prompts (tty c).
Proof.
  eexists. split; [apply get_dict_parameters_loop_prints|].
  simpl. repeat split.
  rewrite prompts_app, prompts_printed. apply app_nil_r.
Qed.

Lemma set_length_ge {V} (d : Py.dict V) k v :
  (length d <= length (Py.set d k v) /\ 1 <= length (Py.set d k v))%nat.
Proof.
  induction d as [|[k' v'] d IH]; simpl; [lia|].
  destruct (decide (k' = k)); simpl; lia.
Qed.

Lemma get_options_loop_listable elements : forall wp c,
  Forall listable elements ->
  exists wp' c',
    get_options_loop elements wp c = (inr wp', c') /\
    quiet c c' /\ outside c' = outside c /\
    (length wp <= length wp')%nat /\
    (Exists is_watch elements -> (1 <= length wp')%nat).
Proof.
  induction elements as [|e rest IH]; intros wp c Hl.
  - exists wp, c. simpl. unfold ret.
    split; [reflexivity|]. split; [apply quiet_refl|].
    split; [reflexivity|]. split; [lia|].
    intros Hex. inversion Hex.
  - inversion Hl as [|? ? [[[t Ht] [ty Hty]] Hpos] Hrest]; subst. simpl.
    unfold bind at 1. unfold subscript at 1. rewrite Ht. unfold ret at 1.
    unfold bind at 1. unfold lift at 1. simpl concat_title.
    destruct (print_quiet ("OPTICAL ELEMENT:    " +:+ t) c) as (c1 & Hp & Hq1).
    assert (Ho1 : outside c1 = outside c).
    { unfold print, modify in Hp. injection Hp as <-. reflexivity. }
    rewrite (bind_ok _ _ _ _ _ Hp).
    unfold get_dict_parameters.
    rewrite (bind_ok _ _ _ _ _ (get_dict_parameters_loop_prints _ _ _)).
    set (c2 := {| stdin := stdin c1; tty := _; outside := outside c1 |}).
    assert (Hq2 : quiet c c2).
    { eapply quiet_trans; [exact Hq1|]. split; [|reflexivity]. simpl.
      rewrite prompts_app, prompts_printed. apply app_nil_r. }
    unfold bind at 1. unfold subscript at 1. rewrite Hty. unfold ret at 1.
    destruct (Py.eq_str ty "watch") eqn:Hw.
    + destruct Hpos as [pos Hposition]; [exists ty; auto|].
      unfold bind at 1. unfold subscript at 1. rewrite Ht. unfold ret at 1.
      unfold bind at 1. unfold subscript at 1. rewrite Hposition.
      unfold ret at 1.
      destruct (IH (Py.set wp (Some t) (py_str pos)) c2 Hrest)
        as (wp' & c' & Hrun & Hq3 & Ho3 & Hlen & _).
      exists wp', c'. split; [exact Hrun|].
      split; [eapply quiet_trans; eassumption|].
      split; [rewrite Ho3; exact Ho1|].
      pose proof (set_length_ge wp (Some t) (py_str pos)) as [? ?].
      split; [lia|]. intros _. lia.
    + destruct (IH wp c2 Hrest) as (wp' & c' & Hrun & Hq3 & Ho3 & Hlen & Hex).
      exists wp', c'. split; [exact Hrun|].
      split; [eapply quiet_trans; eassumption|].
      split; [rewrite Ho3; exact Ho1|].
      split; [exact Hlen|].
      intros Hsome. apply Hex. inversion Hsome as [? ? [v [Hv Hvw]]|]; subst;
        [|assumption].
      rewrite Hty in Hv. injection Hv as <-. congruence.
Qed.

Lemma get_options_ok (c : console) (sim_id : string)
  (data : sim_data) (sv : srv) :
  sb_auth "http://10.10.10.10:8000" "srw" (Some sim_id) (server (outside c))
  = (inr data, sv) ->
  Forall listable (beamline data) ->
  Exists is_watch (beamline data) ->
  exists c',
    get_options sim_id c = (inr tt, c') /\
    prompts (tty c') = prompts (tty c) /\ stdin c' = stdin c /\
    server (outside c') = sv /\
    calls (outside c') = calls (outside c) ++
      [CallAuth "http://10.10.10.10:8000" "srw" (Some sim_id)].
Proof.
  intros Hauth Hl Hex.
  set (c1 := {| stdin := stdin c; tty := tty c;
                outside := with_server sv
                  (calls (outside c) ++
                   [CallAuth "http://10.10.10.10:8000" "srw" (Some sim_id)])
                  (outside c) |}).
  assert (Ha : in_world (remote (CallAuth "http://10.10.10.10:8000" "srw" (Some sim_id))
                 (sb_auth "http://10.10.10.10:8000" "srw" (Some sim_id))) c
               = (inr data, c1)).
  { unfold in_world, remote. rewrite Hauth. reflexivity. }
  destruct (print_quiet "Tunable parameters for Bluesky scan: " c1)
    as (c2 & Hp & Hq2).
  assert (Ho2 : outside c2 = outside c1).
  { unfold print, modify in Hp. injection Hp as <-. reflexivity. }
  destruct (get_options_loop_listable (beamline data) [] c2 Hl)
    as (wp & c3 & Hloop & Hq3 & Ho3 & _ & Hlen).
  specialize (Hlen Hex).
  destruct (print_quiet ("WATCHPOINTS:       " +:+ repr_watchpoints wp) c3)
    as (c4 & Hp4 & Hq4).
  assert (Ho4 : outside c4 = outside c3).
  { unfold print, modify in Hp4. injection Hp4 as <-. reflexivity. }
  exists c4. split.
  { unfold get_options. rewrite (bind_ok _ _ _ _ _ Ha).
    rewrite (bind_ok _ _ _ _ _ Hp). rewrite (bind_ok _ _ _ _ _ Hloop).
    rewrite (bind_ok _ _ _ _ _ Hp4).
    destruct (length wp <? 1)%nat eqn:Hlt; [|reflexivity].
    apply Nat.ltb_lt in Hlt. lia. }
  assert (Hq : quiet c1 c4).
  { eapply quiet_trans; [exact Hq2|]. eapply quiet_trans; eassumption. }
  destruct Hq as [Hpr Hst].
  split; [exact Hpr|]. split; [exact Hst|].
  rewrite Ho4, Ho3, Ho2. split; reflexivity.
Qed.

(** X16: [get_options] returns as soon as the beamline has a watch-point: with
    elements that each have a string title and a type, and a position
    when they are watch-points, and at least one watch-point among them,
    it raises nothing, asks nothing, and has sent the one authentication
    request. *)
Theorem get_options_accepts_a_watchpoint (c : console) (sim_id : string)
  (data : sim_data) (sv : srv) :
  sb_auth "http://10.10.10.10:8000" "srw" (Some sim_id) (server (outside c))
  = (inr data, sv) ->
  Forall listable (beamline data) ->
  Exists is_watch (beamline data) ->
  exists c',
    get_options sim_id c = (inr tt, c') /\
    prompts (tty c') = prompts (tty c) /\ stdin c' = stdin c /\
    server (outside c') = sv /\
    calls (outside c') = calls (outside c) ++
      [CallAuth "http://10.10.10.10:8000" "srw" (Some sim_id)].
Proof. apply get_options_ok. Qed.

Lemma input_run prompt line rest (c : console) :
  stdin c = line :: rest ->
  input prompt c =
  (inr line, {| stdin := rest; tty := tty c ++ [Prompted prompt];
                outside := outside c |}).
Proof. unfold input. now intros ->. Qed.

(** The script up to the construction of the detector: the five answers
    are read, one request is sent, and the constructor is reached with
    the answers as its arguments. *)
Lemma script_reaches_init (db : reg_ref) (c : console)
  (sim optic p0 p1 wn : string) (rest : list string)
  (data : sim_data) (sv : srv) :
  stdin c = sim :: optic :: p0 :: p1 :: wn :: rest ->
  sb_auth "http://10.10.10.10:8000" "srw" (Some sim) (server (outside c))
  = (inr data, sv) ->
  Forall listable (beamline data) ->
  Exists is_watch (beamline data) ->
  exists c',
    prompts (tty c') = prompts (tty c) ++ "Please enter sim ID: " :: later_prompts /\
    stdin c' = rest /\
    calls (outside c') = calls (outside c) ++
      [CallAuth "http://10.10.10.10:8000" "srw" (Some sim)] /\
    script db c =
    bind (in_world
            (__init__ "srw_det" optic p0 (optic +:+ "_x") (optic +:+ "_x")
               (Some (optic +:+ "_y")) (Some (optic +:+ "_y")) (Some p1)
               (Some db) (Some sim) (Some wn) "http://10.10.10.10:8000"
               no_kwargs))
         (fun srw_det =>
            ret (with_ophyd
                   (Device_setattr "configuration_attrs"
                      ["horizontal_extent"; "vertical_extent"; "shape"]
                      (ophyd (with_ophyd
                                (Device_setattr "read_attrs"
                                   ["image"; "mean"; "photon_energy"]
                                   (ophyd srw_det)) srw_det)))
                   (with_ophyd
                      (Device_setattr "read_attrs"
                         ["image"; "mean"; "photon_energy"]
                         (ophyd srw_det)) srw_det))) c'.
Proof.
  intros Hin Hauth Hl Hex.
  pose proof (input_run "Please enter sim ID: " _ _ c Hin) as Hi1.
  set (c0 := {| stdin := optic :: p0 :: p1 :: wn :: rest;
                tty := tty c ++ [Prompted "Please enter sim ID: "];
                outside := outside c |}) in *.
  destruct (get_options_ok c0 sim data sv Hauth Hl Hex)
    as (c1 & Hgo & Hpr1 & Hst1 & _ & Hcalls1).
  destruct c1 as [in1 tty1 out1]. simpl in Hpr1, Hst1, Hcalls1. subst in1.
  eexists. split; [|split; [|split]]; cycle 3.
  { unfold script. rewrite (bind_ok _ _ _ _ _ Hi1).
    rewrite (bind_ok _ _ _ _ _ Hgo).
    erewrite bind_ok by (apply input_run; reflexivity). cbv beta.
    erewrite bind_ok by (apply input_run; reflexivity). cbv beta.
    erewrite bind_ok by (apply input_run; reflexivity). cbv beta.
    erewrite bind_ok by (apply input_run; reflexivity). cbv beta.
    reflexivity. }
  - simpl. rewrite !prompts_app, Hpr1, prompts_app. simpl.
    rewrite <- !app_assoc. reflexivity.
  - reflexivity.
  - exact Hcalls1.
Qed.

(** X17: The script on a beamline with a watch-point: five prompts in order,
    five answers read, and a detector named ["srw_det"] built from them,
    with the two axes of the component as motors.  An empty answer to the
    fourth prompt becomes the second parameter name [''], not [None]. *)
Theorem script_builds_detector (db : reg_ref) (c : console)
  (sim optic p0 p1 wn : string) (rest : list string)
  (data : sim_data) (sv : srv) :
  stdin c = sim :: optic :: p0 :: p1 :: wn :: rest ->
  sim <> "" ->
  sb_auth "http://10.10.10.10:8000" "srw" (Some sim) (server (outside c))
  = (inr data, sv) ->
  Forall listable (beamline data) ->
  Exists is_watch (beamline data) ->
  exists d c',
    script db c = (inr d, c') /\
    prompts (tty c') = prompts (tty c) ++ "Please enter sim ID: " :: later_prompts /\
    stdin c' = rest /\
    calls (outside c') = calls (outside c) ++
      [CallAuth "http://10.10.10.10:8000" "srw" (Some sim)] /\
    name d = "srw_det" /\ optic_name d = optic /\
    param0 d = p0 /\ param1 d = Some p1 /\
    _motor0 d = optic +:+ "_x" /\ _field0 d = optic +:+ "_x" /\
    _motor1 d = Some (optic +:+ "_y") /\ _field1 d = Some (optic +:+ "_y") /\
    reg d = Some db /\ _sim_id d = Some sim /\ watch_name d = Some wn /\
    _sirepo_server d = "http://10.10.10.10:8000" /\
    _resource_id d = None /\ _result d = [].
Proof.
  intros Hin Hsim Hauth Hl Hex.
  destruct (script_reaches_init db c sim optic p0 p1 wn rest data sv
              Hin Hauth Hl Hex) as (c' & Hpr & Hst & Hcalls & Hrun).
  rewrite Hrun. unfold bind, in_world, __init__.
  destruct (Device_init "srw_det" no_kwargs) as [b sg].
  assert (Py.truthy (Some sim) = true) as ->.
  { simpl. destruct (String.eqb_spec sim ""); [contradiction | reflexivity]. }
  unfold ret. eexists _, _. split; [reflexivity|].
  destruct c'. simpl in *. repeat split; assumption || reflexivity.
Qed.

(** X18: The simulation id is checked last: when the operator enters nothing
    at the first prompt and the service accepts the empty id, the script
    still asks its four other questions, and only then the constructor
    raises [AssertionError]. *)
Theorem empty_sim_id_is_rejected_last (db : reg_ref) (c : console)
  (optic p0 p1 wn : string) (rest : list string)
  (data : sim_data) (sv : srv) :
  stdin c = "" :: optic :: p0 :: p1 :: wn :: rest ->
  sb_auth "http://10.10.10.10:8000" "srw" (Some "") (server (outside c))
  = (inr data, sv) ->
  Forall listable (beamline data) ->
  Exists is_watch (beamline data) ->
  exists msg c',
    script db c = (inl (Py.AssertionError msg), c') /\
    prompts (tty c') = prompts (tty c) ++ "Please enter sim ID: " :: later_prompts /\
    stdin c' = rest.
Proof.
  intros Hin Hauth Hl Hex.
  destruct (script_reaches_init db c "" optic p0 p1 wn rest data sv
              Hin Hauth Hl Hex) as (c' & Hpr & Hst & Hcalls & Hrun).
  rewrite Hrun. unfold bind, in_world, __init__.
  destruct (Device_init "srw_det" no_kwargs) as [b sg].
  change (Py.truthy (Some "")) with false. unfold raise.
  eexists _, _. split; [reflexivity|].
  destruct c'. simpl in *. split; assumption.
Qed.

(** X19: When the authentication fails, the script ends right there with the
    service's exception: one prompt shown, one answer read, nothing
    printed. *)
Theorem script_stops_on_auth_failure (db : reg_ref) (c : console)
  (sim : string) (rest : list string) (e : Py.exn) (sv : srv) :
  stdin c = sim :: rest ->
  sb_auth "http://10.10.10.10:8000" "srw" (Some sim) (server (outside c))
  = (inl e, sv) ->
  exists c',
    script db c = (inl e, c') /\
    tty c' = tty c ++ [Prompted "Please enter sim ID: "] /\
    stdin c' = rest /\
    calls (outside c') = calls (outside c) ++
      [CallAuth "http://10.10.10.10:8000" "srw" (Some sim)].
Proof.
  intros Hin Hauth.
  pose proof (input_run "Please enter sim ID: " _ _ c Hin) as Hi1.
  eexists. split.
  { unfold script. rewrite (bind_ok _ _ _ _ _ Hi1).
    apply bind_fail. unfold get_options. apply bind_fail.
    unfold in_world, remote. simpl. rewrite Hauth. reflexivity. }
  simpl. repeat split; reflexivity.
Qed.

(** ** The units substring *)

Lemma find_from_found (c : ascii) (l1 l2 : list ascii) : forall i,
  c ∉ l1 -> Py.find_from c (l1 ++ c :: l2) i = (i + Z.of_nat (length l1))%Z.
Proof.
  induction l1 as [|a l1 IH]; intros i Hn; simpl.
  - rewrite decide_True by reflexivity. lia.
  - apply not_elem_of_cons in Hn as [Hne Hn].
    rewrite decide_False by congruence. rewrite IH by exact Hn. lia.
Qed.

Lemma find_from_absent (c : ascii) (l : list ascii) : forall i,
  c ∉ l -> Py.find_from c l i = (-1)%Z.
Proof.
  induction l as [|a l IH]; intros i Hn; simpl; [reflexivity|].
  apply not_elem_of_cons in Hn as [Hne Hn].
  rewrite decide_False by congruence. now apply IH.
Qed.

Lemma slice_middle {A} (a b c : list A) :
  Py.slice (Z.of_nat (length a)) (Z.of_nat (length a + length b))
    (a ++ b ++ c) = b.
Proof.
  unfold Py.slice, Py.clamp. rewrite !length_app.
  destruct (Z.ltb_spec (Z.of_nat (length a)) 0); [lia|].
  destruct (Z.ltb_spec (Z.of_nat (length a + length b)) 0); [lia|].
  replace (Z.to_nat (Z.max 0 (Z.min (Z.of_nat (length a + (length b + length c)))
                                (Z.of_nat (length a)))))
    with (length a) by lia.
  replace (Z.to_nat
             (Z.max 0 (Z.min (Z.of_nat (length a + (length b + length c)))
                         (Z.of_nat (length a + length b))) -
              Z.max 0 (Z.min (Z.of_nat (length a + (length b + length c)))
                         (Z.of_nat (length a)))))
    with (length b) by lia.
  rewrite drop_app_length. apply take_app_length.
Qed.

(** X20: The units are what stands between the first opening bracket and the
    first closing bracket of characters 200 to 299 of the text, when the
    closing bracket comes after the opening one. *)
Theorem final_units_between_brackets (text : string)
  (pre u post : list ascii) :
  Py.slice 200 300 (list_ascii_of_string text)
  = pre ++ "["%char :: u ++ "]"%char :: post ->
  "["%char ∉ pre -> "]"%char ∉ pre -> "]"%char ∉ u ->
  final_units text = u.
Proof.
  intros Hw Hopen Hclose Hu. unfold final_units. rewrite Hw.
  unfold Py.find. rewrite (find_from_found _ _ _ 0 Hopen).
  assert (Hc : "]"%char ∉ pre ++ ["["%char] ++ u).
  { rewrite !not_elem_of_app. split; [exact Hclose|]. split; [|exact Hu].
    intros Hin. apply list_elem_of_singleton in Hin. discriminate. }
  replace (pre ++ "["%char :: u ++ "]"%char :: post)
    with ((pre ++ ["["%char] ++ u) ++ "]"%char :: post)
    by (rewrite <- !app_assoc; reflexivity).
  rewrite (find_from_found _ _ _ 0 Hc).
  replace ((pre ++ ["["%char] ++ u) ++ "]"%char :: post)
    with ((pre ++ ["["%char]) ++ u ++ "]"%char :: post)
    by (rewrite <- !app_assoc; reflexivity).
  replace (0 + Z.of_nat (length pre) + 1)%Z
    with (Z.of_nat (length (pre ++ ["["%char])))
    by (rewrite length_app; simpl; lia).
  replace (0 + Z.of_nat (length (pre ++ ["["%char] ++ u)))%Z
    with (Z.of_nat (length (pre ++ ["["%char]) + length u))
    by (rewrite !length_app; simpl; lia).
  apply slice_middle.
Qed.

(** X21: With an opening bracket and no closing one in the window, the index
    -1 that [find] returns is taken as a slice bound: the units are the
    rest of the window but for its last character. *)
Theorem final_units_unclosed (text : string) (pre u : list ascii) :
  Py.slice 200 300 (list_ascii_of_string text) = pre ++ "["%char :: u ->
  "["%char ∉ pre -> "]"%char ∉ pre -> "]"%char ∉ u ->
  final_units text = take (length u - 1) u.
Proof.
  intros Hw Hopen Hclose Hu. unfold final_units. rewrite Hw.
  unfold Py.find. rewrite (find_from_found _ _ _ 0 Hopen).
  rewrite find_from_absent.
  2:{ rewrite not_elem_of_app, not_elem_of_cons. split; [exact Hclose|].
      split; [discriminate | exact Hu]. }
  assert (Hlen : length (pre ++ "["%char :: u) = (length pre + S (length u))%nat)
    by (rewrite length_app; reflexivity).
  unfold Py.slice, Py.clamp. rewrite Hlen.
  destruct (Z.ltb_spec (0 + Z.of_nat (length pre) + 1) 0); [lia|].
  change (-1 <? 0)%Z with true. cbv iota.
  replace (Z.to_nat (Z.max 0 (Z.min (Z.of_nat (length pre + S (length u)))
                                (0 + Z.of_nat (length pre) + 1))))
    with (length (pre ++ ["["%char])) by (rewrite length_app; simpl; lia).
  replace (pre ++ "["%char :: u) with ((pre ++ ["["%char]) ++ u)
    by (rewrite <- app_assoc; reflexivity).
  rewrite drop_app_length. f_equal. lia.
Qed.

End Properties.

(** * The properties at work on the stub service *)

Module Examples.

Import Stub.

#[local] Existing Instance Stub.opaque.

Lemma uid_inj m n : uid m = uid n -> m = n.
Proof.
  unfold uid. intros Hu.
  change (String "u" (String "i" (String "d" (String "-" (pretty m))))
          = String "u" (String "i" (String "d" (String "-" (pretty n)))))
    in Hu.
  injection Hu as Hp. exact (pretty_nat_inj _ _ Hp).
Qed.

(** The example of the specification: the motors read 1.0 and 2.0, the
    reader returns its fixed fields. *)
Lemma trigger_example :
  exists s' data_run e',
    stub_trigger (state0 [[]; []]) = (inr NullStatus, s') /\
    calls (env s') =
      [CallAuth "http://10.10.10.10:8000" "srw" (Some "sim1");
       CallGetDatafile data0; CallRunSimulation data_run;
       CallGetDatafile data_run] /\
    beamline data_run !! 0%nat = Some e' /\
    Py.get e' (Some "horizontalOffset") = Some (Py.PyFloat 1000) /\
    Py.get e' (Some "verticalOffset") = Some (Py.PyFloat 2000) /\
    sig (self s') =
      {| image := Py.PyStr "uid-0";
         shape := Py.PyTuple [Py.PyInt 100; Py.PyInt 100];
         mean := Py.PyFloat 5;
         photon_energy := Py.PyInt 9000;
         horizontal_extent := Py.PyTuple [Py.PyInt (-1); Py.PyInt 1];
         vertical_extent := Py.PyTuple [Py.PyInt (-1); Py.PyInt 1] |}.
Proof.
  pose (s' := snd (stub_trigger (state0 [[]; []]))).
  assert (Hrun : stub_trigger (state0 [[]; []]) = (inr NullStatus, s'))
    by (vm_compute; reflexivity).
  destruct (trigger_sets_parameters_and_publishes _ _ _ Hrun)
    as (x & y & x1000 & y1000 & data & element & e & data_run & result &
        ret_ & dm & Hx & Hy & Hx1 & Hy1 & Hauth & Hel & He & Hcalls & Hb &
        (e' & He' & Hp1 & Hp0) & _).
  vm_compute in Hx. injection Hx as <-.
  vm_compute in Hy. injection Hy as <-.
  vm_compute in Hx1. injection Hx1 as <-.
  vm_compute in Hy1. injection Hy1 as <-.
  vm_compute in Hauth. injection Hauth as <-.
  vm_compute in Hel. injection Hel as <-.
  exists s', data_run, e'.
  split; [exact Hrun|]. split; [exact Hcalls|]. split; [exact He'|].
  split; [apply Hp0; discriminate|]. split; [exact Hp1|].
  vm_compute. reflexivity.
Defined.

(** Two triggers in a row on the stub: two datums, two resources, all
    four identifiers different. *)
Lemma successive_triggers_example :
  exists s1 s2,
    stub_trigger (state0 [[]; []; []; []]) = (inr NullStatus, s1) /\
    stub_trigger s1 = (inr NullStatus, s2) /\
    map datum_id (datums (db_reg (env s2))) = ["uid-0"; "uid-2"] /\
    map res_uid (resources (db_reg (env s2))) = ["uid-1"; "uid-3"] /\
    map datum_resource (datums (db_reg (env s2)))
    = [Some "uid-1"; Some "uid-3"].
Proof.
  pose (s1 := snd (stub_trigger (state0 [[]; []; []; []]))).
  pose (s2 := snd (stub_trigger s1)).
  assert (H1 : stub_trigger (state0 [[]; []; []; []]) = (inr NullStatus, s1))
    by (vm_compute; reflexivity).
  assert (H2 : stub_trigger s1 = (inr NullStatus, s2))
    by (vm_compute; reflexivity).
  destruct (@successive_triggers_distinct_entries Stub.opaque
              Stub.collaborators _ s1 s1 s2 _ _
              uid_inj H1 eq_refl (le_n _) H2)
    as (r1 & d1 & r2 & d2 & _ & Hreg & _).
  exists s1, s2. split; [exact H1|]. split; [exact H2|].
  vm_compute. auto.
Defined.

(** A simulation id the stub service does not know: the authentication
    fails, and the failure is all that happens to the adapter. *)
Lemma auth_failure_example :
  exists s',
    stub_trigger {| self := det0 (Some "unknown"); env := world0 [] |}
    = (inl (Py.Raised "AssertionError" "bluesky_auth failed"), s') /\
    sig (self s') = no_signals /\
    _resource_id (self s') = None /\
    db_reg (env s') = {| resources := []; datums := [] |} /\
    files (env s') = ∅.
Proof.
  destruct (@remote_failure_leaves_adapter_unchanged Stub.opaque
              Stub.collaborators
              {| self := det0 (Some "unknown"); env := world0 [] |}
              (Py.Raised "AssertionError" "bluesky_auth failed")
              (@auth_failure Stub.opaque Stub.collaborators
                 {| self := det0 (Some "unknown"); env := world0 [] |}
                 (Py.Raised "AssertionError" "bluesky_auth failed")
                 (Py.PyFloat 1) (Py.PyFloat 2) [] eq_refl eq_refl eq_refl))
    as (s' & Hrun & _ & Hsig & Hrid & _ & Hreg & Hfiles & _).
  exists s'. repeat split; assumption.
Defined.

(** C4, as stated, fails: the second of two triggers in a row finds the
    resource id of the first one in place, and registers a second resource
    all the same. *)
Lemma resource_registered_again :
  exists s1 s2,
    stub_trigger (state0 [[]; []; []; []]) = (inr NullStatus, s1) /\
    _resource_id (self s1) = Some "uid-1" /\
    map res_uid (resources (db_reg (env s1))) = ["uid-1"] /\
    stub_trigger s1 = (inr NullStatus, s2) /\
    map res_uid (resources (db_reg (env s2))) = ["uid-1"; "uid-3"] /\
    map res_path (resources (db_reg (env s2)))
    = ["/tmp/data/2019/07/04/uid-0.dat"; "/tmp/data/2019/07/04/uid-2.dat"].
Proof.
  exists (snd (stub_trigger (state0 [[]; []; []; []]))).
  exists (snd (stub_trigger (snd (stub_trigger (state0 [[]; []; []; []]))))).
  vm_compute. repeat split; reflexivity.
Qed.

(** The amended C4 on the second trigger of the same session. *)
Lemma second_trigger_registers_resource :
  exists s1 s2 rid,
    _resource_id (self s1) = Some "uid-1" /\
    stub_trigger s1 = (inr NullStatus, s2) /\
    resources (db_reg (env s2)) =
      resources (db_reg (env s1)) ++
      [{| res_uid := rid; res_spec := "srw";
          res_path := "/tmp/data/2019/07/04/uid-2.dat"; res_kwargs := [] |}] /\
    _resource_id (self s2) = Some rid.
Proof.
  pose (s1 := snd (stub_trigger (state0 [[]; []; []; []]))).
  pose (s2 := snd (stub_trigger s1)).
  assert (H2 : stub_trigger s1 = (inr NullStatus, s2))
    by (vm_compute; reflexivity).
  destruct (@trigger_always_registers_resource Stub.opaque
              Stub.collaborators s1 _ s2 H2)
    as (rid & Hres & _ & Hrid).
  exists s1, s2, rid. split; [vm_compute; reflexivity|].
  split; [exact H2|]. split; [exact Hres | exact Hrid].
Defined.

(** A detector built with one motor only: the constructor accepts it, the
    trigger raises on the motor that is not there. *)
Lemma single_motor_example :
  exists d s',
    @__init__ Stub.opaque Stub.collaborators
      "srw_det" "Aperture" "horizontalOffset" "Aperture_x" "Aperture_x"
      None None None (Some DbReg) (Some "sim1") (Some "W60")
      "http://10.10.10.10:8000" tt (world0 [[]; []])
    = (inr d, world0 [[]; []]) /\
    _motor1 d = None /\
    stub_trigger {| self := d; env := world0 [[]; []] |}
    = (inl (Py.AttributeError "'NoneType' object has no attribute 'read'"), s')
    /\ calls (env s') = [].
Proof.
  pose (d := {| ophyd := false; name := "srw_det"; sig := no_signals;
                reg := Some DbReg; optic_name := "Aperture";
                param0 := "horizontalOffset"; param1 := None;
                _motor0 := "Aperture_x"; _motor1 := None;
                _field0 := "Aperture_x"; _field1 := None;
                _resource_id := None; _result := [];
                _sim_id := Some "sim1"; watch_name := Some "W60";
                _sirepo_server := "http://10.10.10.10:8000";
                _hints := None |} : SRWDetector).
  destruct (@single_motor_trigger_fails Stub.opaque Stub.collaborators
              {| self := d; env := world0 [[]; []] |} eq_refl) as [_ Hfail].
  destruct (Hfail (Py.PyFloat 1) eq_refl) as (s' & Hrun & Hcalls).
  exists d, s'. split; [reflexivity|]. split; [reflexivity|].
  split; [exact Hrun | exact Hcalls].
Defined.

(** [describe] on the stub, before and after [unstage]. *)
Lemma describe_example :
  exists res,
    @describe Stub.opaque Stub.collaborators (state0 []) = (inr res, state0 []) /\
    Py.get res (Some "srw_det_image")
    = Some [(Some "source", Py.PyStr "SIM:srw_det_image");
            (Some "external", Py.PyStr "FILESTORE")] /\
    Py.get res (Some "srw_det_mean")
    = Some [(Some "source", Py.PyStr "SIM:srw_det_mean")] /\
    fst (@describe Stub.opaque Stub.collaborators
           (snd (@unstage Stub.opaque Stub.collaborators (state0 []))))
    = inr res.
Proof.
  assert (Hplain : forall k m,
            Py.get (map (fun a => (Some ("srw_det" +:+ "_" +:+ a),
                       [(Some "source", Py.PyStr ("SIM:" +:+ "srw_det" +:+ "_" +:+ a))]))
                      ["image"; "shape"; "mean"; "photon_energy";
                       "horizontal_extent"; "vertical_extent"]) k = Some m ->
            Py.get m (Some "external") = None).
  { intros k m Hk. simpl in Hk.
    repeat (destruct (decide _) in Hk; [injection Hk as <-; reflexivity|]).
    discriminate. }
  destruct (@describe_marks_image Stub.opaque Stub.collaborators (state0 [])
              _ [(Some "source", Py.PyStr "SIM:srw_det_image")]
              eq_refl eq_refl Hplain (fun _ _ _ => eq_refl))
    as (res & Hrun & Himg & _ & Hafter).
  exists res. split; [exact Hrun|]. split; [exact Himg|].
  split; [|exact Hafter].
  vm_compute in Hrun. injection Hrun as <-. reflexivity.
Defined.

(** The discovery script on the simulation without watch-point. *)
Lemma no_watchpoints_example :
  exists c',
    @script Stub.opaque Stub.collaborators DbReg
      (console0 ["sim2"; "Aperture"; "horizontalOffset"; ""; "W60"])
    = (inl (Py.ValueError "No watchpoints found. This simulation will not work"),
       c') /\
    prompts (tty c') = ["Please enter sim ID: "] /\
    stdin c' = ["Aperture"; "horizontalOffset"; ""; "W60"].
Proof.
  assert (Hnw : Forall (@not_watch) [aperture]).
  { constructor; [|constructor]. intros v Hv. vm_compute in Hv.
    injection Hv as <-. reflexivity. }
  assert (Htitled : Forall (@titled) [aperture]).
  { constructor; [|constructor]. split; eexists; reflexivity. }
  destruct (@no_watchpoints_no_further_prompts Stub.opaque Stub.collaborators
              DbReg
              (console0 ["sim2"; "Aperture"; "horizontalOffset"; ""; "W60"])
              "sim2" ["Aperture"; "horizontalOffset"; ""; "W60"]
              data_no_watch [] eq_refl eq_refl Hnw)
    as (e & c' & Hrun & Hprompts & Hstdin & Herr).
  rewrite (Herr Htitled) in Hrun.
  exists c'. split; [exact Hrun|]. split; [exact Hprompts | exact Hstdin].
Defined.

(** Two first downloads that differ in the units only, millimetres
    against radians: the same trigger. *)
Lemma units_example :
  final_units (string_of_list_byte (datafile "mm")) = ["m"; "m"]%char /\
  final_units (string_of_list_byte (datafile "rad")) = ["r"; "a"; "d"]%char /\
  stub_trigger (state0 [datafile "mm"; []])
  = stub_trigger (on_env (with_server [datafile "rad"; []] [])
                    (state0 [datafile "mm"; []])).
Proof.
  split; [vm_compute; reflexivity|]. split; [vm_compute; reflexivity|].
  apply (@units_are_not_used Stub.opaque Stub.collaborators
           (state0 [datafile "mm"; []]) [datafile "rad"; []]
           (Py.PyFloat 1) (Py.PyFloat 2) data0
           [datafile "mm"; []] [datafile "rad"; []] [[]]
           (datafile "mm") (datafile "rad")
           (string_of_list_byte (datafile "mm"))
           (string_of_list_byte (datafile "rad"))
           eq_refl eq_refl eq_refl eq_refl eq_refl eq_refl eq_refl eq_refl).
  exists (list_ascii_of_string (padding 210 +:+ "[")),
         (list_ascii_of_string ("]" +:+ padding 100)).
  split; vm_compute; reflexivity.
Defined.

End Examples.

(** * The stages of a trigger and the script on the stub service *)

Module Stages.

Import Stub.

#[local] Existing Instance Stub.opaque.

(** Settle the facts about a concrete run by computation. *)
Ltac facts :=
  first
    [ reflexivity
    | apply elem_of_singleton; reflexivity
    | apply not_elem_of_empty
    | split; facts
    | eexists; facts ].

Lemma trigger_returns_example :
  exists s',
    stub_trigger (state0 [[]; [Byte.x41]]) = (inr NullStatus, s') /\
    files (env s') !! "/tmp/data/2019/07/04/uid-0.dat" = Some [Byte.x41] /\
    mean (sig (self s')) = Py.PyFloat 5.
Proof.
  edestruct (@trigger_returns Stub.opaque Stub.collaborators
               (state0 [[]; [Byte.x41]]))
    as (s' & Hrun & Hfile & _ & Hsig); [facts..|].
  exists s'. split; [exact Hrun|]. split; [exact Hfile|].
  now rewrite Hsig.
Defined.

Lemma motor_failure_example :
  exists s',
    stub_trigger {| self := det0 (Some "sim1");
                    env := world1 ∅ blank_motors [[]; []] |}
    = (inl (Py.KeyError "Aperture_x"), s') /\
    calls (env s') = [] /\ uids (env s') = 0%nat.
Proof.
  edestruct (@motor_failure_sends_nothing Stub.opaque Stub.collaborators
               {| self := det0 (Some "sim1");
                  env := world1 ∅ blank_motors [[]; []] |}
               (Py.KeyError "Aperture_x"))
    as (s' & Hrun & Henv & _); [left; reflexivity|].
  exists s'. split; [exact Hrun|]. rewrite Henv. split; reflexivity.
Defined.

Lemma undecodable_download_example :
  exists s',
    @trigger Stub.opaque (variant (fun _ => None) reader) (state0 [[]; []])
    = (inl Py.UnicodeDecodeError, s') /\
    calls (env s') =
      [CallAuth "http://10.10.10.10:8000" "srw" (Some "sim1");
       CallGetDatafile data0] /\
    sig (self s') = no_signals.
Proof.
  edestruct (@undecodable_download_aborts Stub.opaque
               (variant (fun _ => None) reader) (state0 [[]; []]))
    as (s' & Hrun & Hcalls & Hsig & _); [facts..|].
  exists s'. split; [exact Hrun|]. split; [exact Hcalls | exact Hsig].
Defined.

Lemma unscalable_reading_example :
  exists s',
    stub_trigger {| self := det0 (Some "sim1");
                    env := world1 {[ "/tmp/data/2019/07/04" ]} idle_motors
                             [[]; []] |}
    = (inl (Py.TypeError
              "unsupported operand type(s) for *: 'NoneType' and 'int'"), s')
    /\
    calls (env s') =
      [CallAuth "http://10.10.10.10:8000" "srw" (Some "sim1");
       CallGetDatafile data0].
Proof.
  edestruct (@unscalable_reading_aborts Stub.opaque Stub.collaborators
               {| self := det0 (Some "sim1");
                  env := world1 {[ "/tmp/data/2019/07/04" ]} idle_motors
                           [[]; []] |})
    as (s' & Hrun & Hcalls & _); [facts.. | left; reflexivity |].
  exists s'. split; [exact Hrun | exact Hcalls].
Defined.

Lemma missing_directory_example :
  exists s',
    stub_trigger {| self := det0 (Some "sim1");
                    env := world1 ∅ motor_readings [[]; []] |}
    = (inl (Py.FileNotFoundError "/tmp/data/2019/07/04/uid-0.dat"), s') /\
    length (calls (env s')) = 3%nat /\ files (env s') = ∅.
Proof.
  edestruct (@missing_directory_after_run Stub.opaque Stub.collaborators
               {| self := det0 (Some "sim1");
                  env := world1 ∅ motor_readings [[]; []] |})
    as (s' & Hrun & Hcalls & Hfiles & _); [facts..|].
  exists s'. split; [exact Hrun|]. rewrite Hcalls, Hfiles.
  split; reflexivity.
Defined.

Lemma failed_download_example :
  exists s',
    stub_trigger (state0 [[]])
    = (inl (Py.Raised "AssertionError" "download failed"), s') /\
    files (env s') !! "/tmp/data/2019/07/04/uid-0.dat" = Some [] /\
    sig (self s') = no_signals.
Proof.
  edestruct (@failed_download_leaves_empty_file Stub.opaque Stub.collaborators
               (state0 [[]]))
    as (s' & Hrun & Hfiles & Hsig & _); [facts..|].
  exists s'. split; [exact Hrun|]. rewrite Hfiles.
  split; [apply lookup_insert_eq | exact Hsig].
Defined.

Lemma rejected_result_example :
  exists s',
    @trigger Stub.opaque
      (variant (fun b => Some (string_of_list_byte b)) failing_reader)
      (state0 [[]; [Byte.x41]])
    = (inl (Py.Raised "ValueError" "malformed file"), s') /\
    files (env s') !! "/tmp/data/2019/07/04/uid-0.dat" = Some [Byte.x41] /\
    sig (self s') = no_signals.
Proof.
  edestruct (@rejected_result_stays_on_disk Stub.opaque
               (variant (fun b => Some (string_of_list_byte b)) failing_reader)
               (state0 [[]; [Byte.x41]]))
    as (s' & Hrun & Hfiles & Hsig & _); [facts..|].
  exists s'. split; [exact Hrun|]. rewrite Hfiles.
  split; [apply lookup_insert_eq | exact Hsig].
Defined.

Lemma missing_shape_example :
  exists s',
    @trigger Stub.opaque
      (variant (fun b => Some (string_of_list_byte b)) short_reader)
      (state0 [[]; []])
    = (inl (Py.KeyError "shape"), s') /\
    image (sig (self s')) = Py.PyStr "uid-0" /\
    mean (sig (self s')) = Py.PyNone /\
    datums (db_reg (env s')) = [].
Proof.
  edestruct (@missing_shape_publishes_image_only Stub.opaque
               (variant (fun b => Some (string_of_list_byte b)) short_reader)
               (state0 [[]; []]))
    as (s' & Hrun & Hsig & Hreg & _); [facts..|].
  exists s'. split; [exact Hrun|]. rewrite Hsig, Hreg.
  repeat split; reflexivity.
Defined.

Lemma no_registry_example :
  exists s',
    stub_trigger {| self := det_no_reg; env := world0 [[]; []] |}
    = (inl (Py.AttributeError
              "'NoneType' object has no attribute 'insert_resource'"), s') /\
    image (sig (self s')) = Py.PyStr "uid-0" /\
    mean (sig (self s')) = Py.PyFloat 5 /\
    resources (db_reg (env s')) = [].
Proof.
  edestruct (@no_registry_fails_after_publishing Stub.opaque
               Stub.collaborators
               {| self := det_no_reg; env := world0 [[]; []] |})
    as (s' & Hrun & Hsig & _ & Hreg & _); [facts..|].
  exists s'. split; [exact Hrun|]. rewrite Hsig, Hreg.
  repeat split; reflexivity.
Defined.


Lemma trigger_report_example :
  exists s',
    stub_trigger (state0 [[]; []]) = (inr NullStatus, s') /\
    (exists data_run,
       last (calls (env s')) = Some (CallGetDatafile data_run) /\
       report data_run = Some "watchpointReport7") /\
    (exists e watch_id,
       field_is e "title" (Some "W60") = true /\
       Py.get e (Some "id") = Some watch_id).
Proof.
  pose (s' := snd (stub_trigger (state0 [[]; []]))).
  assert (Hrun : stub_trigger (state0 [[]; []]) = (inr NullStatus, s'))
    by (vm_compute; reflexivity).
  destruct (@trigger_selects_watchpoint_report Stub.opaque Stub.collaborators
              _ _ _ Hrun)
    as (data & element & x1000 & y1000 & watch & e & wid & _ & _ & _ & _ & _ &
        Htitle & Hid).
  exists s'. split; [exact Hrun|]. split.
  - eexists. split; vm_compute; reflexivity.
  - exists e, wid. split; [exact Htitle | exact Hid].
Defined.

Lemma unstage_after_trigger_example :
  exists s1 s2,
    stub_trigger (state0 [[]; []]) = (inr NullStatus, s1) /\
    @unstage Stub.opaque Stub.collaborators s1 = (inr tt, s2) /\
    _resource_id (self s1) = Some "uid-1" /\
    _resource_id (self s2) = None /\
    image (sig (self s2)) = Py.PyStr "uid-0" /\
    map datum_id (datums (db_reg (env s2))) = ["uid-0"].
Proof.
  pose (s1 := snd (stub_trigger (state0 [[]; []]))).
  assert (Hrun : stub_trigger (state0 [[]; []]) = (inr NullStatus, s1))
    by (vm_compute; reflexivity).
  destruct (@unstage_keeps_what_trigger_published Stub.opaque
              Stub.collaborators _ _ _ Hrun)
    as (s2 & dm & result & Hun & Hrid & _).
  exists s1, s2. split; [exact Hrun|]. split; [exact Hun|].
  split; [vm_compute; reflexivity|]. split; [exact Hrid|].
  vm_compute in Hun. injection Hun as <-. split; reflexivity.
Defined.

Lemma listable_beamline : Forall (@listable) [aperture; watchpoint].
Proof.
  repeat constructor; try (eexists; reflexivity).
Qed.

Lemma watchpoint_in_beamline : Exists (@is_watch) [aperture; watchpoint].
Proof.
  right. left. eexists. split; reflexivity.
Qed.

Lemma get_options_example :
  exists c',
    @get_options Stub.opaque Stub.collaborators "sim1" (console0 [])
    = (inr tt, c') /\
    prompts (tty c') = [] /\
    calls (outside c') = [CallAuth "http://10.10.10.10:8000" "srw" (Some "sim1")].
Proof.
  destruct (@get_options_accepts_a_watchpoint Stub.opaque Stub.collaborators
              (console0 []) "sim1" data0 [] eq_refl
              listable_beamline watchpoint_in_beamline)
    as (c' & Hrun & Hpr & _ & _ & Hcalls).
  exists c'. split; [exact Hrun|]. split; [exact Hpr | exact Hcalls].
Defined.

(** The operator presses ENTER at the fourth prompt. *)
Lemma script_example :
  exists d c',
    @script Stub.opaque Stub.collaborators DbReg
      (console0 ["sim1"; "Aperture"; "horizontalOffset"; ""; "W60"])
    = (inr d, c') /\
    prompts (tty c') = "Please enter sim ID: " :: later_prompts /\
    stdin c' = [] /\
    optic_name d = "Aperture" /\ param0 d = "horizontalOffset" /\
    param1 d = Some "" /\ _motor1 d = Some "Aperture_y" /\
    watch_name d = Some "W60".
Proof.
  destruct (@script_builds_detector Stub.opaque Stub.collaborators DbReg
              (console0 ["sim1"; "Aperture"; "horizontalOffset"; ""; "W60"])
              "sim1" "Aperture" "horizontalOffset" "" "W60" [] data0 []
              eq_refl ltac:(discriminate) eq_refl
              listable_beamline watchpoint_in_beamline)
    as (d & c' & Hrun & Hpr & Hst & _ & _ & Hoptic & Hp0 & Hp1 & _ & _ & Hm1 &
        _ & _ & _ & Hwn & _).
  exists d, c'. repeat split; assumption.
Defined.

Lemma empty_sim_id_example :
  exists msg c',
    @script Stub.opaque lenient DbReg
      (console0 [""; "Aperture"; "horizontalOffset"; ""; "W60"])
    = (inl (Py.AssertionError msg), c') /\
    prompts (tty c') = "Please enter sim ID: " :: later_prompts /\
    stdin c' = [].
Proof.
  destruct (@empty_sim_id_is_rejected_last Stub.opaque lenient DbReg
              (console0 [""; "Aperture"; "horizontalOffset"; ""; "W60"])
              "Aperture" "horizontalOffset" "" "W60" [] data0 []
              eq_refl eq_refl listable_beamline watchpoint_in_beamline)
    as (msg & c' & Hrun & Hpr & Hst).
  exists msg, c'. repeat split; assumption.
Defined.

Lemma script_auth_failure_example :
  exists c',
    @script Stub.opaque Stub.collaborators DbReg
      (console0 ["nope"; "Aperture"])
    = (inl (Py.Raised "AssertionError" "bluesky_auth failed"), c') /\
    tty c' = [Prompted "Please enter sim ID: "] /\
    stdin c' = ["Aperture"].
Proof.
  destruct (@script_stops_on_auth_failure Stub.opaque Stub.collaborators DbReg
              (console0 ["nope"; "Aperture"]) "nope" ["Aperture"]
              (Py.Raised "AssertionError" "bluesky_auth failed") []
              eq_refl eq_refl)
    as (c' & Hrun & Htty & Hst & _).
  exists c'. repeat split; assumption.
Defined.

Lemma final_units_example :
  final_units (string_of_list_byte (datafile "mm")) = ["m"; "m"]%char.
Proof.
  apply (final_units_between_brackets
           (string_of_list_byte (datafile "mm"))
           (list_ascii_of_string (padding 10)) ["m"; "m"]%char
           (list_ascii_of_string (padding 86))).
  - vm_compute. reflexivity.
  - apply (bool_decide_unpack _). vm_compute. exact I.
  - apply (bool_decide_unpack _). vm_compute. exact I.
  - apply (bool_decide_unpack _). vm_compute. exact I.
Defined.

Lemma final_units_unclosed_example :
  final_units (padding 210 +:+ "[mm") = ["m"]%char.
Proof.
  apply (final_units_unclosed
           (padding 210 +:+ "[mm")
           (list_ascii_of_string (padding 10)) ["m"; "m"]%char).
  - vm_compute. reflexivity.
  - apply (bool_decide_unpack _). vm_compute. exact I.
  - apply (bool_decide_unpack _). vm_compute. exact I.
  - apply (bool_decide_unpack _). vm_compute. exact I.
Defined.

End Stages.
